(** * BankingSystemTwo: the Java comment strippers

    A shallow embedding of the two line filters of the repository,
    [simplify_better.py] and [simplify_comments.py], and the properties of
    their comment-stripping loop.

    A Python [str] is a sequence of Unicode code points; a line is such a
    sequence, with its terminator when it has one.  The two regular
    expression calls of the scripts ([re.match] and [re.sub]) are run by a
    small backtracking matcher over the patterns exactly as they are written
    in the source. *)

From Stdlib Require Import NArith String Ascii Lia.
From stdpp Require Import base list.

(** ** Python strings *)

Definition char : Type := N.
Definition str : Type := list char.

Definition ch (a : ascii) : char := N_of_ascii a.

(** A string literal of the source, as code points. *)
Definition lit (s : string) : str := map ch (list_ascii_of_string s).
Arguments lit s%_string.

(** The line feed, which Rocq string literals cannot escape. *)
Definition LF : char := 10%N.

(** [str.isspace] on one code point, which is also the class [\s] of [re] on
    [str] patterns: the white-space code points of CPython. *)
Definition isspace (c : char) : bool :=
  (N.leb 0x09 c && N.leb c 0x0D) || (N.leb 0x1C c && N.leb c 0x20)
  || N.eqb c 0x85 || N.eqb c 0xA0 || N.eqb c 0x1680
  || (N.leb 0x2000 c && N.leb c 0x200A)
  || N.eqb c 0x2028 || N.eqb c 0x2029 || N.eqb c 0x202F
  || N.eqb c 0x205F || N.eqb c 0x3000.

Fixpoint lstrip (s : str) : str :=
  match s with
  | c :: s' => if isspace c then lstrip s' else s
  | [] => []
  end.

Definition rstrip (s : str) : str := rev (lstrip (rev s)).

(** [s.strip()] *)
Definition strip (s : str) : str := rstrip (lstrip s).

(** [s.startswith(p)] *)
Fixpoint startswith (s p : str) : bool :=
  match p, s with
  | [], _ => true
  | a :: p', b :: s' => N.eqb a b && startswith s' p'
  | _ :: _, [] => false
  end.

(** [p in s] *)
Fixpoint contains (s p : str) : bool :=
  startswith s p ||
  match s with
  | [] => false
  | _ :: s' => contains s' p
  end.

(** [s == ''] *)
Definition is_empty (s : str) : bool :=
  match s with [] => true | _ => false end.

(** ** Regular expressions

    The four patterns of the scripts are sequences of anchors, literals,
    greedy repetitions of one character class and one alternation of
    literals; the syntax below has exactly these. *)

Inductive cls : Type :=
| Space             (* \s *)
| Dot               (* .  : anything but a line feed *)
| Chr (c : char).   (* one given character *)

Inductive atom : Type :=
| Bol                         (* ^ *)
| Eol                         (* $ *)
| Lit (l : str)               (* a literal *)
| Rep (c : cls) (min : nat)   (* c{min,} ; c* is [Rep c 0] *)
| Alt (alts : list str).      (* (l1|l2|...) *)

Definition regex : Type := list atom.

Definition in_cls (c : cls) (x : char) : bool :=
  match c with
  | Space => isspace x
  | Dot => negb (N.eqb x LF)
  | Chr y => N.eqb x y
  end.

(** [$] without MULTILINE: at the end, or before a line feed that ends the
    string. *)
Definition at_end (s : str) : bool :=
  match s with
  | [] => true
  | [c] => N.eqb c LF
  | _ => false
  end.

(** Removes the literal [l] from the front of [s]. *)
Fixpoint eat (l s : str) : option str :=
  match l, s with
  | [], _ => Some s
  | a :: l', b :: s' => if N.eqb a b then eat l' s' else None
  | _ :: _, [] => None
  end.

(** The matcher returns what is left of the subject after the first match in
    backtracking order; [bos] tells whether the cursor is still at the
    beginning of the subject, [k] is the rest of the pattern. *)
Definition cont : Type := bool -> str -> option str.

(** Greedy repetition: as many characters as possible, giving them back one
    by one while the rest of the pattern fails. *)
Fixpoint rep (c : cls) (min : nat) (k : cont) (bos : bool) (s : str)
  : option str :=
  let stop := match min with O => k bos s | S _ => None end in
  match s with
  | x :: s' =>
      if in_cls c x then
        match rep c (pred min) k false s' with
        | Some r => Some r
        | None => stop
        end
      else stop
  | [] => stop
  end.

(** Alternation: the branches in order. *)
Fixpoint alt (alts : list str) (k : cont) (bos : bool) (s : str)
  : option str :=
  match alts with
  | [] => None
  | a :: alts' =>
      match eat a s with
      | Some s' =>
          match k (bos && is_empty a) s' with
          | Some r => Some r
          | None => alt alts' k bos s
          end
      | None => alt alts' k bos s
      end
  end.

Fixpoint exec (p : regex) (bos : bool) (s : str) : option str :=
  match p with
  | [] => Some s
  | a :: p' =>
      match a with
      | Bol => if bos then exec p' bos s else None
      | Eol => if at_end s then exec p' bos s else None
      | Lit l =>
          match eat l s with
          | Some s' => exec p' (bos && is_empty l) s'
          | None => None
          end
      | Rep c min => rep c min (exec p') bos s
      | Alt alts => alt alts (exec p') bos s
      end
  end.

(** [re.match(p, s)], as the truth value the scripts test. *)
Definition re_match (p : regex) (s : str) : bool :=
  match exec p true s with Some _ => true | None => false end.

(** [re.sub(p, repl, s)]: the matches are looked for from left to right and
    do not overlap.  Every turn of the loop shortens the subject, so its
    length plus one is enough fuel. *)
Fixpoint sub_loop (fuel : nat) (p : regex) (repl : str) (bos : bool) (s : str)
  : str :=
  match fuel with
  | O => s
  | S fuel' =>
      match exec p bos s with
      | Some rest =>
          if Nat.ltb (length rest) (length s)
          then repl ++ sub_loop fuel' p repl false rest
          else match s with
               | [] => repl
               | c :: s' => repl ++ c :: sub_loop fuel' p repl false s'
               end
      | None =>
          match s with
          | [] => []
          | c :: s' => c :: sub_loop fuel' p repl false s'
          end
      end
  end.

Definition re_sub (p : regex) (repl : str) (s : str) : str :=
  sub_loop (S (length s)) p repl true s.

(** [re.search(p, s)], as a truth value: a match starting anywhere. *)
Fixpoint search_from (p : regex) (bos : bool) (s : str) : bool :=
  match exec p bos s with
  | Some _ => true
  | None =>
      match s with
      | [] => false
      | _ :: s' => search_from p false s'
      end
  end.

Definition re_search (p : regex) (s : str) : bool := search_from p true s.

(** ** The patterns of the scripts *)

(** [r'^\s*//\s*={3,}.*={3,}\s*$'] (simplify_better.py) *)
Definition divider_better : regex :=
  [Bol; Rep Space 0; Lit (lit "//"); Rep Space 0; Rep (Chr (ch "=")) 3;
   Rep Dot 0; Rep (Chr (ch "=")) 3; Rep Space 0; Eol].

(** [r'^\s*//\s*={3,}'] (simplify_comments.py) *)
Definition divider_comments : regex :=
  [Bol; Rep Space 0; Lit (lit "//"); Rep Space 0; Rep (Chr (ch "=")) 3].

Definition noise_markers : list str :=
  map lit
    ["Method calls:"; "Calls"; "Note:"; "Why:"; "Problem:"; "NEW APPROACH:";
     "OLD APPROACH:"; "FIXED:"; "Uses"; "This demonstrates"; "Benefits:";
     "Algorithm:"; "Time Complexity:"; "Space Complexity:"; "Pattern:";
     "Demonstrates:"]%string.

(** [r'^\s*//(Method calls:|Calls|...|Demonstrates:)'] *)
Definition noise_prefix : regex :=
  [Bol; Rep Space 0; Lit (lit "//"); Alt noise_markers].

Definition action_markers : list str :=
  map lit
    ["Format:"; "Extract"; "Track"; "Record"; "Mark"; "Add to"; "Shift";
     "Continue"; "Found"; "Insert"; "Safe"; "Return"; "Get"; "Set"; "Create";
     "Update"; "Delete"; "Find"; "Check"; "Display"; "Process"; "Handle";
     "Show"; "Print"]%string.

(** [r'\s*//\s*(Format:|Extract|...|Print)'] *)
Definition inline_action : regex :=
  [Rep Space 0; Lit (lit "//"); Rep Space 0; Alt action_markers].

(** ** The loop

    Each turn of the loop either leaves by one of its [continue]s or appends
    a line to [result]; the verdict records which. *)

Inductive verdict : Type :=
| DropOpener    (* the line starts a JavaDoc comment *)
| DropCloser    (* the line ends the comment *)
| DropInside    (* the line is inside the comment *)
| DropBlank     (* the blank line after a comment *)
| DropDivider   (* a section divider *)
| DropNoise     (* a comment with a noise marker *)
| Keep (out : str).

Definition emitted (v : verdict) : list str :=
  match v with
  | Keep out => [out]
  | _ => []
  end.

Definition is_drop (v : verdict) : bool :=
  match v with
  | Keep _ => false
  | _ => true
  end.

(** [enumerate(lines)] *)
Definition enumerate (lines : list str) : list (nat * str) :=
  imap (fun i line => (i, line)) lines.

Section Loop.
Context {S : Type}.
Variable body : S -> str -> S * verdict.

(** [for i, line in enumerate(lines): ...] with [result.append(line)] *)
Definition for_loop (st0 : S) (lines : list str) : S * list str :=
  fold_left
    (fun (acc : S * list str) (il : nat * str) =>
       let '(st, result) := acc in
       let '(st', v) := body st (snd il) in
       (st', result ++ emitted v))
    (enumerate lines) (st0, []).

(** The verdict of every turn, in order. *)
Fixpoint verdicts (st : S) (lines : list str) : list verdict :=
  match lines with
  | [] => []
  | line :: rest =>
      let '(st', v) := body st line in v :: verdicts st' rest
  end.

(** The state after the last turn. *)
Fixpoint final (st : S) (lines : list str) : S :=
  match lines with
  | [] => st
  | line :: rest => final (fst (body st line)) rest
  end.

(** The lines appended, in order. *)
Fixpoint run (st : S) (lines : list str) : list str :=
  match lines with
  | [] => []
  | line :: rest =>
      let '(st', v) := body st line in emitted v ++ run st' rest
  end.

(** [len(result)] when turn [i] begins. *)
Definition position (vs : list verdict) (i : nat) : nat :=
  length (concat (map emitted (take i vs))).
End Loop.

(** ** simplify_better.py *)

Module Better.

Record state : Type := State {
  in_javadoc : bool;
  in_block_comment : bool;
  skip_next_blank : bool
}.

Definition init : state := State false false false.

(** [in_javadoc or in_block_comment], the test of the closer and of the
    inside exits. *)
Definition inside (st : state) : bool :=
  in_javadoc st || in_block_comment st.

Definition body (st : state) (line : str) : state * verdict :=
  let stripped := strip line in
  if startswith stripped (lit "/**") then
    (State true (in_block_comment st) (skip_next_blank st), DropOpener)
  else if inside st && contains stripped (lit "*/") then
    (State false false true, DropCloser)
  else if inside st then
    (st, DropInside)
  else if skip_next_blank st && is_empty stripped then
    (State (in_javadoc st) (in_block_comment st) false, DropBlank)
  else
    let st' := State (in_javadoc st) (in_block_comment st) false in
    if re_match divider_better stripped then (st', DropDivider)
    else (st', Keep line).

(** The loop of [simplify_java_file], from the lines read to the lines
    written. *)
Definition simplify_java_file (lines : list str) : list str :=
  snd (for_loop body init lines).

(** The exits of [body] as rules: what a turn returns, under the tests that
    lead there, in the order of the source. *)
Inductive turn (st : state) (line : str) : state * verdict -> Prop :=
| turn_opener :
    startswith (strip line) (lit "/**") = true ->
    turn st line
      (State true (in_block_comment st) (skip_next_blank st), DropOpener)
| turn_closer :
    startswith (strip line) (lit "/**") = false ->
    inside st = true ->
    contains (strip line) (lit "*/") = true ->
    turn st line (State false false true, DropCloser)
| turn_inside :
    startswith (strip line) (lit "/**") = false ->
    inside st = true ->
    contains (strip line) (lit "*/") = false ->
    turn st line (st, DropInside)
| turn_blank :
    startswith (strip line) (lit "/**") = false ->
    inside st = false ->
    skip_next_blank st = true ->
    strip line = [] ->
    turn st line
      (State (in_javadoc st) (in_block_comment st) false, DropBlank)
| turn_divider :
    startswith (strip line) (lit "/**") = false ->
    inside st = false ->
    skip_next_blank st = false \/ strip line <> [] ->
    re_match divider_better (strip line) = true ->
    turn st line
      (State (in_javadoc st) (in_block_comment st) false, DropDivider)
| turn_keep :
    startswith (strip line) (lit "/**") = false ->
    inside st = false ->
    skip_next_blank st = false \/ strip line <> [] ->
    re_match divider_better (strip line) = false ->
    turn st line
      (State (in_javadoc st) (in_block_comment st) false, Keep line).

End Better.

(** ** simplify_comments.py *)

Module Comments.

Record state : Type := State {
  in_javadoc : bool;
  skip_next_blank : bool
}.

Definition init : state := State false false.

Definition body (st : state) (line : str) : state * verdict :=
  let stripped := strip line in
  if startswith stripped (lit "/**") then
    (State true (skip_next_blank st), DropOpener)
  else if in_javadoc st && contains stripped (lit "*/") then
    (State false true, DropCloser)
  else if in_javadoc st then
    (st, DropInside)
  else if skip_next_blank st && is_empty stripped then
    (State (in_javadoc st) false, DropBlank)
  else
    let st' := State (in_javadoc st) false in
    if re_match divider_comments stripped then (st', DropDivider)
    else if re_match noise_prefix stripped then (st', DropNoise)
    else (st', Keep (re_sub inline_action [] line)).

Definition simplify_java_file (lines : list str) : list str :=
  snd (for_loop body init lines).

(** The exits of [body] as rules, as for simplify_better.py. *)
Inductive turn (st : state) (line : str) : state * verdict -> Prop :=
| turn_opener :
    startswith (strip line) (lit "/**") = true ->
    turn st line (State true (skip_next_blank st), DropOpener)
| turn_closer :
    startswith (strip line) (lit "/**") = false ->
    in_javadoc st = true ->
    contains (strip line) (lit "*/") = true ->
    turn st line (State false true, DropCloser)
| turn_inside :
    startswith (strip line) (lit "/**") = false ->
    in_javadoc st = true ->
    contains (strip line) (lit "*/") = false ->
    turn st line (st, DropInside)
| turn_blank :
    startswith (strip line) (lit "/**") = false ->
    in_javadoc st = false ->
    skip_next_blank st = true ->
    strip line = [] ->
    turn st line (State (in_javadoc st) false, DropBlank)
| turn_divider :
    startswith (strip line) (lit "/**") = false ->
    in_javadoc st = false ->
    skip_next_blank st = false \/ strip line <> [] ->
    re_match divider_comments (strip line) = true ->
    turn st line (State (in_javadoc st) false, DropDivider)
| turn_noise :
    startswith (strip line) (lit "/**") = false ->
    in_javadoc st = false ->
    skip_next_blank st = false \/ strip line <> [] ->
    re_match divider_comments (strip line) = false ->
    re_match noise_prefix (strip line) = true ->
    turn st line (State (in_javadoc st) false, DropNoise)
| turn_keep :
    startswith (strip line) (lit "/**") = false ->
    in_javadoc st = false ->
    skip_next_blank st = false \/ strip line <> [] ->
    re_match divider_comments (strip line) = false ->
    re_match noise_prefix (strip line) = false ->
    turn st line
      (State (in_javadoc st) false, Keep (re_sub inline_action [] line)).

End Comments.

(** ** Reading and writing the file *)

(** The carriage return. *)
Definition CR : char := 13%N.

(** What [open(input_file, 'r', encoding='utf-8')] does to the decoded
    content before any of it is read (newline=None): a carriage return with
    a line feed after it, and a carriage return alone, become a line feed. *)
Fixpoint universal_newlines (text : str) : str :=
  match text with
  | [] => []
  | c :: rest =>
      if N.eqb c CR then
        match rest with
        | d :: rest' =>
            if N.eqb d LF then LF :: universal_newlines rest'
            else LF :: universal_newlines rest
        | [] => [LF]
        end
      else c :: universal_newlines rest
  end.

(** Cuts a text after every line feed, terminators kept. *)
Fixpoint readlines_acc (cur : str) (text : str) : list str :=
  match text with
  | [] => match cur with [] => [] | _ => [rev cur] end
  | c :: text' =>
      if N.eqb c LF then rev (c :: cur) :: readlines_acc [] text'
      else readlines_acc (c :: cur) text'
  end.

(** [f.readlines()] on the file opened for reading, from the decoded
    content of the file: the line ends are translated, then the text is cut
    into lines. *)
Definition readlines (text : str) : list str :=
  readlines_acc [] (universal_newlines text).

(** [f.writelines(result)]: the text handed to the file opened for
    writing. *)
Definition writelines (result : list str) : str := concat result.

(** ** Shapes of strings, for the statements *)

(** Every character of [s] is in the class [c]. *)
Definition all_in (c : cls) (s : str) : Prop :=
  Forall (fun x => in_cls c x = true) s.

(** [s] is white space only. *)
Definition spaces (s : str) : Prop := all_in Space s.

(** A [//] comment in which two runs of at least three [=] bound a label
    (which, like the whole comment, is on one line). *)
Definition divider_shape (s : str) : Prop :=
  exists (ws : str) (a : nat) (label : str) (b : nat),
    s = lit "//" ++ ws ++ replicate a (ch "=") ++ label ++ replicate b (ch "=")
    /\ spaces ws /\ 3 <= a /\ 3 <= b /\ LF ∉ label.

(** A [//] comment that begins, after optional white space, with a run of at
    least three [=]. *)
Definition divider_open_shape (s : str) : Prop :=
  exists (ws : str) (rest : str),
    s = lit "//" ++ ws ++ replicate 3 (ch "=") ++ rest /\ spaces ws.

(** The line has somewhere a [//], optional white space and an action-verb
    marker. *)
Definition has_action_marker (line : str) : Prop :=
  exists (before ws marker after : str),
    line = before ++ lit "//" ++ ws ++ marker ++ after
    /\ spaces ws /\ marker ∈ action_markers.

(** A [//] comment whose body begins at once with a noise marker. *)
Definition noise_shape (s : str) : Prop :=
  exists (marker rest : str),
    s = lit "//" ++ marker ++ rest /\ marker ∈ noise_markers.

(** ** Lines for the examples *)

(** A line of a file: its text and the line feed. *)
Definition ln (s : string) : str := lit s ++ [LF].
Arguments ln s%_string.

(** A blank line. *)
Definition blank : str := [LF].

(** The trimmed content has no [*/]. *)
Definition no_closer (line : str) : Prop :=
  contains (strip line) (lit "*/") = false.

(** The turn did not append anything. *)
Definition dropped (v : verdict) : Prop := is_drop v = true.

(** ** Blank suppression, for a scanner with its two flags *)

Section Scanner.
Context {S : Type}.
Variable body : S -> str -> S * verdict.
Variables inside skip : S -> bool.
Variable init : S.

(** What the scripts do about the blank line after a closed comment:
    only a line that is blank after trimming is dropped as such, and the
    drop clears the flag; outside a comment, with the flag set, a blank
    line is dropped; counted from the start of the file, a line dropped
    as blank comes right after a closer line; a line that is not blank is
    never dropped as blank, and clears the flag when it reaches the
    check, that is unless it opens a doc comment; a line that opens a doc
    comment is dropped as an opener and leaves the flag as it was. *)
Definition blank_suppression : Prop :=
  (forall st line,
      snd (body st line) = DropBlank ->
      strip line = [] /\ inside st = false /\ skip st = true
      /\ skip (fst (body st line)) = false)
  /\ (forall st line,
      inside st = false -> skip st = true -> strip line = [] ->
      snd (body st line) = DropBlank)
  /\ (forall lines i,
      verdicts body init lines !! i = Some DropBlank ->
      exists i', i = Datatypes.S i'
                 /\ verdicts body init lines !! i' = Some DropCloser)
  /\ (forall st line,
      strip line <> [] ->
      snd (body st line) <> DropBlank
      /\ (inside st = false ->
          startswith (strip line) (lit "/**") = false ->
          skip (fst (body st line)) = false))
  /\ (forall st line,
      startswith (strip line) (lit "/**") = true ->
      snd (body st line) = DropOpener
      /\ skip (fst (body st line)) = skip st).
End Scanner.

(** The trimmed content does not start with [/**]. *)
Definition no_opener (line : str) : Prop :=
  startswith (strip line) (lit "/**") = false.

(** The turn left by none of the three block-comment exits. *)
Definition outside_comment (v : verdict) : Prop :=
  v <> DropOpener /\ v <> DropCloser /\ v <> DropInside.

(** ** Lines that a second pass leaves alone *)

(** No match of the action-verb pattern anywhere in the line. *)
Definition no_action_marker (line : str) : Prop :=
  re_search inline_action line = false.

(** What simplify_better.py keeps outside a comment. *)
Definition better_keepable (line : str) : Prop :=
  no_opener line /\ re_match divider_better (strip line) = false.

(** What simplify_comments.py keeps outside a comment, unchanged. *)
Definition comments_keepable (line : str) : Prop :=
  no_opener line
  /\ re_match divider_comments (strip line) = false
  /\ re_match noise_prefix (strip line) = false
  /\ no_action_marker line.

(** ** The whole function, from the text read to the text written *)

(** simplify_better.py, from the decoded content of the input file to the
    text handed to the output file: [readlines], the loop, [writelines]. *)
Definition better_simplify_text (text : str) : str :=
  writelines (Better.simplify_java_file (readlines text)).

(** simplify_comments.py: the same around its loop. *)
Definition comments_simplify_text (text : str) : str :=
  writelines (Comments.simplify_java_file (readlines text)).

(** A line with its line feed, and none before it. *)
Definition terminated (line : str) : Prop :=
  exists s, line = s ++ [LF] /\ LF ∉ s.

(** A last line without a line feed. *)
Definition unterminated (line : str) : Prop :=
  line <> [] /\ LF ∉ line.

(** The lines of a text: each with its line feed, but possibly the last. *)
Inductive file_lines : list str -> Prop :=
| file_end : file_lines []
| file_last (line : str) : unterminated line -> file_lines [line]
| file_line (line : str) (rest : list str) :
    terminated line -> file_lines rest -> file_lines (line :: rest).

(** What the two scripts do with the same line, side by side: the verdict
    of simplify_better.py against that of simplify_comments.py. *)
Definition agree (vb vc : verdict) : Prop :=
  match vc with
  | DropOpener | DropCloser | DropInside | DropBlank => vb = vc
  | DropDivider => vb = DropDivider \/ exists line, vb = Keep line
  | DropNoise => exists line, vb = Keep line
  | Keep _ => exists line, vb = Keep line
  end.

(** The lines after a closed doc comment, less the blank line that blank
    suppression takes. *)
Definition after_block (rest : list str) : list str :=
  match rest with
  | line :: rest' => if is_empty (strip line) then rest' else rest
  | [] => []
  end.

(** A line on which the two scripts have the same rules: it is a divider
    for both or for neither, has no noise marker at the [//] and no match of
    the action-verb pattern. *)
Definition same_rules (line : str) : Prop :=
  re_match divider_comments (strip line) = re_match divider_better (strip line)
  /\ re_match noise_prefix (strip line) = false
  /\ no_action_marker line.

(** The states of the two scripts say the same: same [in_javadoc], same
    [skip_next_blank], and [in_block_comment] down. *)
Definition same_state (stb : Better.state) (stc : Comments.state) : Prop :=
  Better.in_javadoc stb = Comments.in_javadoc stc
  /\ Better.in_block_comment stb = false
  /\ Better.skip_next_blank stb = Comments.skip_next_blank stc.

(** The rest of the pattern treats a subject and the same subject with a
    line feed after it alike. *)
Definition lf_blind (k : cont) : Prop :=
  forall (b : bool) (t : str),
    k b (t ++ [LF]) = option_map (fun r => r ++ [LF]) (k b t).

(** What a turn may do to a line that has no [//]: drop it for the doc
    comment it is in or the blank it is, or write it as it is. *)
Definition untouched (line : str) (v : verdict) : Prop :=
  match v with
  | Keep out => out = line
  | DropDivider | DropNoise => False
  | _ => True
  end.

(** * Properties *)

(** ** Strings *)

Lemma eat_Some (l s r : str) : eat l s = Some r <-> s = l ++ r.
Proof.
  revert s. induction l as [|a l IH]; intros s; simpl.
  - split; congruence.
  - destruct s as [|b s]; [split; discriminate|].
    destruct (N.eqb_spec a b) as [->|Hab].
    + rewrite IH. split; congruence.
    + split; [discriminate|]. intros [= ? ?]. congruence.
Qed.

Lemma eat_app (l r : str) : eat l (l ++ r) = Some r.
Proof. now apply eat_Some. Qed.

Lemma startswith_prefix (s p : str) :
  startswith s p = true <-> exists r, s = p ++ r.
Proof.
  revert s. induction p as [|a p IH]; intros s.
  - destruct s; simpl; split; eauto.
  - destruct s as [|b s]; simpl.
    + split; [discriminate|]. intros [r [=]].
    + rewrite andb_true_iff, N.eqb_eq, IH. split.
      * intros [-> [r ->]]. eauto.
      * intros [r [= -> ->]]. eauto.
Qed.

Lemma contains_infix (s p : str) :
  contains s p = true <-> exists a b, s = a ++ p ++ b.
Proof.
  induction s as [|c s IH]; cbn [contains].
  - rewrite orb_false_r, startswith_prefix. split.
    + intros [r ->]. exists [], r. reflexivity.
    + intros (a & b & H). destruct a; simpl in H; [eauto|discriminate].
  - rewrite orb_true_iff, IH, startswith_prefix. split.
    + intros [[r ->]|(a & b & ->)].
      * exists [], r. reflexivity.
      * exists (c :: a), b. reflexivity.
    + intros (a & b & H). destruct a as [|c' a]; simpl in H.
      * left. eauto.
      * right. injection H as -> ->. eauto.
Qed.

Lemma is_empty_nil (s : str) : is_empty s = true <-> s = [].
Proof. destruct s; simpl; split; congruence. Qed.

Lemma lstrip_split (s : str) :
  exists ws, s = ws ++ lstrip s /\ spaces ws.
Proof.
  induction s as [|c s (ws & IH & Hws)]; simpl.
  - exists []. split; [reflexivity|constructor].
  - destruct (isspace c) eqn:Hc.
    + exists (c :: ws). split; [simpl; congruence|now constructor].
    + exists []. split; [reflexivity|constructor].
Qed.

Lemma lstrip_head (s t : str) (c : char) :
  lstrip s = c :: t -> isspace c = false.
Proof.
  induction s as [|x s IH]; simpl; [discriminate|].
  destruct (isspace x) eqn:Hx; [exact IH|]. congruence.
Qed.

Lemma lstrip_fixed (s : str) (c : char) :
  isspace c = false -> lstrip (c :: s) = c :: s.
Proof. intros H. simpl. now rewrite H. Qed.

Lemma lstrip_spaces (ws s : str) : spaces ws -> lstrip (ws ++ s) = lstrip s.
Proof.
  induction 1 as [|c ws Hc _ IH]; simpl; [reflexivity|].
  simpl in Hc. now rewrite Hc.
Qed.

(** A line is its trimmed content between two runs of white space. *)
Lemma strip_split (l : str) :
  exists ws1 ws2, l = ws1 ++ strip l ++ ws2 /\ spaces ws1 /\ spaces ws2.
Proof.
  destruct (lstrip_split l) as (ws1 & H1 & Hws1).
  destruct (lstrip_split (rev (lstrip l))) as (ws2 & H2 & Hws2).
  exists ws1, (rev ws2). split; [|split; [assumption|]].
  - unfold strip, rstrip. rewrite <- rev_app_distr, <- H2, rev_involutive.
    exact H1.
  - now apply List.Forall_rev.
Qed.

Lemma strip_head (l t : str) (c : char) :
  strip l = c :: t -> isspace c = false.
Proof.
  intros H. destruct (lstrip_split (rev (lstrip l))) as (ws & Hsp & _).
  apply (f_equal (@rev char)) in Hsp.
  rewrite rev_involutive, rev_app_distr in Hsp.
  fold (rstrip (lstrip l)) in Hsp. fold (strip l) in Hsp.
  rewrite H in Hsp. simpl in Hsp. eapply lstrip_head. exact Hsp.
Qed.

Lemma strip_last (l t : str) (c : char) :
  strip l = t ++ [c] -> isspace c = false.
Proof.
  unfold strip, rstrip. intros H.
  apply (f_equal (@rev char)) in H.
  rewrite rev_involutive, rev_app_distr in H. simpl in H.
  eapply lstrip_head. exact H.
Qed.

(** Trimmed content does not start or end with white space. *)
Lemma strip_no_lead (l ws r : str) :
  strip l = ws ++ r -> spaces ws -> r <> [] -> ws = [].
Proof.
  intros H Hws Hr. destruct ws as [|c ws]; [reflexivity|].
  apply strip_head in H. inversion Hws as [|? ? Hc _]. simpl in Hc. congruence.
Qed.

Lemma strip_no_trail (l r ws : str) :
  strip l = r ++ ws -> spaces ws -> ws = [].
Proof.
  intros H Hws. destruct ws as [|c ws _] using rev_ind; [reflexivity|].
  rewrite app_assoc in H. apply strip_last in H.
  apply Forall_app in Hws as [_ Hc]. inversion Hc as [|? ? Hc' _].
  simpl in Hc'. congruence.
Qed.

(** ** The matcher *)

Lemma rep_is_Some (c : cls) (k : cont) (s : str) : forall (n : nat) (bos : bool),
  is_Some (rep c n k bos s) <->
  exists pre rest,
    s = pre ++ rest /\ all_in c pre /\ n <= length pre /\
    is_Some (k (bos && is_empty pre) rest).
Proof.
  induction s as [|x s IH]; intros n bos; cbn [rep].
  - split.
    + destruct n; [|intros [? [=]]]. intros Hk.
      exists [], []. rewrite andb_true_r. repeat split; auto; constructor.
    + intros (pre & rest & Hs & _ & Hn & Hk).
      symmetry in Hs. apply app_eq_nil in Hs as [-> ->].
      simpl in Hn. destruct n; [|lia]. now rewrite andb_true_r in Hk.
  - split.
    + intros H.
      assert (Hstop : is_Some (match n with 0 => k bos (x :: s) | _ => None end)
                      -> exists pre rest, x :: s = pre ++ rest /\ all_in c pre /\
                           n <= length pre /\ is_Some (k (bos && is_empty pre) rest)).
      { destruct n; [|intros [? [=]]]. intros Hk.
        exists [], (x :: s). rewrite andb_true_r.
        repeat split; auto; constructor. }
      destruct (in_cls c x) eqn:Hx; [|auto].
      destruct (rep c (pred n) k false s) as [r|] eqn:Hr; [|auto].
      assert (Hr' : is_Some (rep c (pred n) k false s)) by (rewrite Hr; eauto).
      apply IH in Hr' as (pre & rest & -> & Hpre & Hn & Hk).
      exists (x :: pre), rest.
      split; [reflexivity|]. split; [now constructor|].
      split; [simpl; lia|]. simpl. now rewrite andb_false_r.
    + intros (pre & rest & Hs & Hpre & Hn & Hk).
      destruct pre as [|y pre]; simpl in Hs, Hn.
      * destruct n; [|lia]. rewrite andb_true_r in Hk. subst rest.
        destruct (in_cls c x); [|assumption].
        destruct (rep c (pred 0) k false s); [eauto|assumption].
      * injection Hs as <- ->. inversion Hpre as [|? ? Hx Hpre']; subst.
        rewrite Hx.
        assert (Hr : is_Some (rep c (pred n) k false (pre ++ rest))).
        { apply IH. exists pre, rest. simpl in Hk.
          rewrite andb_false_r in Hk.
          split; [reflexivity|]. split; [assumption|]. split; [lia|exact Hk]. }
        destruct Hr as [r ->]. eauto.
Qed.

Lemma alt_is_Some (alts : list str) (k : cont) (bos : bool) (s : str) :
  is_Some (alt alts k bos s) <->
  exists a rest, a ∈ alts /\ s = a ++ rest /\ is_Some (k (bos && is_empty a) rest).
Proof.
  induction alts as [|a alts IH]; cbn [alt].
  - split; [intros [? [=]]|]. intros (a & rest & Ha & _). inversion Ha.
  - split.
    + intros H. destruct (eat a s) as [s'|] eqn:He.
      * destruct (k (bos && is_empty a) s') as [r|] eqn:Hk.
        -- apply eat_Some in He. exists a, s'. rewrite Hk.
           repeat split; eauto. constructor.
        -- apply IH in H as (b & rest & Hb & Hs & Hk').
           exists b, rest. repeat split; auto. now constructor.
      * apply IH in H as (b & rest & Hb & Hs & Hk').
        exists b, rest. repeat split; auto. now constructor.
    + intros (b & rest & Hb & Hs & Hk).
      apply elem_of_cons in Hb as [->|Hb].
      * subst s. rewrite eat_app. destruct Hk as [r ->]. eauto.
      * assert (H : is_Some (alt alts k bos s)) by (apply IH; eauto 6).
        destruct (eat a s) as [s'|]; [|assumption].
        destruct (k (bos && is_empty a) s'); [eauto|assumption].
Qed.

Lemma exec_nil (bos : bool) (s : str) : is_Some (exec [] bos s).
Proof. simpl. eauto. Qed.

Lemma exec_Bol (p : regex) (bos : bool) (s : str) :
  is_Some (exec (Bol :: p) bos s) <-> bos = true /\ is_Some (exec p true s).
Proof.
  cbn [exec]. destruct bos; split; try tauto.
  - intros [? [=]].
  - intros [[=] _].
Qed.

Lemma exec_Eol (p : regex) (bos : bool) (s : str) :
  is_Some (exec (Eol :: p) bos s) <->
  at_end s = true /\ is_Some (exec p bos s).
Proof.
  cbn [exec]. destruct (at_end s); split; try tauto.
  - intros [? [=]].
  - intros [[=] _].
Qed.

Lemma exec_Lit (l : str) (p : regex) (bos : bool) (s : str) :
  is_Some (exec (Lit l :: p) bos s) <->
  exists rest, s = l ++ rest /\ is_Some (exec p (bos && is_empty l) rest).
Proof.
  cbn [exec]. destruct (eat l s) as [s'|] eqn:He.
  - apply eat_Some in He. split; [eauto|].
    intros (rest & Hs & H). subst s. now apply app_inv_head in Hs as ->.
  - split; [intros [? [=]]|]. intros (rest & -> & _).
    now rewrite eat_app in He.
Qed.

Lemma exec_Rep (c : cls) (n : nat) (p : regex) (bos : bool) (s : str) :
  is_Some (exec (Rep c n :: p) bos s) <->
  exists pre rest,
    s = pre ++ rest /\ all_in c pre /\ n <= length pre /\
    is_Some (exec p (bos && is_empty pre) rest).
Proof. cbn [exec]. apply rep_is_Some. Qed.

Lemma exec_Alt (alts : list str) (p : regex) (bos : bool) (s : str) :
  is_Some (exec (Alt alts :: p) bos s) <->
  exists a rest,
    a ∈ alts /\ s = a ++ rest /\ is_Some (exec p (bos && is_empty a) rest).
Proof. cbn [exec]. apply alt_is_Some. Qed.

Lemma re_match_is_Some (p : regex) (s : str) :
  re_match p s = true <-> is_Some (exec p true s).
Proof.
  unfold re_match. destruct (exec p true s); split; eauto; try discriminate.
  intros [? [=]].
Qed.

(** The match leaves a suffix of the subject. *)
Lemma rep_suffix (c : cls) (k : cont) (s : str) :
  (forall b t r, k b t = Some r -> length r <= length t) ->
  forall n bos r, rep c n k bos s = Some r -> length r <= length s.
Proof.
  intros Hk. induction s as [|x s IH]; intros n bos r; cbn [rep].
  - destruct n; [apply Hk|discriminate].
  - assert (Hstop : match n with 0 => k bos (x :: s) | _ => None end = Some r ->
                    length r <= length (x :: s)).
    { destruct n; [apply Hk|discriminate]. }
    destruct (in_cls c x); [|assumption].
    destruct (rep c (pred n) k false s) as [r'|] eqn:Hr; [|assumption].
    intros [= <-]. apply IH in Hr. simpl. lia.
Qed.

Lemma alt_suffix (alts : list str) (k : cont) (bos : bool) (s r : str) :
  (forall b t r, k b t = Some r -> length r <= length t) ->
  alt alts k bos s = Some r -> length r <= length s.
Proof.
  intros Hk. induction alts as [|a alts IH]; cbn [alt]; [discriminate|].
  destruct (eat a s) as [s'|] eqn:He; [|assumption].
  destruct (k (bos && is_empty a) s') as [r'|] eqn:Hr; [|assumption].
  intros [= <-]. apply Hk in Hr. apply eat_Some in He. subst s.
  rewrite length_app. lia.
Qed.

Lemma exec_suffix (p : regex) : forall (bos : bool) (s r : str),
  exec p bos s = Some r -> length r <= length s.
Proof.
  induction p as [|a p IH]; intros bos s r; cbn [exec].
  - now intros [= <-].
  - destruct a as [| |l|c n|alts].
    + destruct bos; [apply IH|discriminate].
    + destruct (at_end s); [apply IH|discriminate].
    + destruct (eat l s) as [s'|] eqn:He; [|discriminate].
      intros H. apply IH in H. apply eat_Some in He. subst s.
      rewrite length_app. lia.
    + apply rep_suffix. exact IH.
    + apply alt_suffix. exact IH.
Qed.


(** More fuel than the length of the subject changes nothing. *)
Lemma sub_loop_enough (p : regex) (repl : str) :
  forall (f1 f2 : nat) (bos : bool) (s : str),
    length s < f1 -> length s < f2 ->
    sub_loop f1 p repl bos s = sub_loop f2 p repl bos s.
Proof.
  induction f1 as [|f1 IH]; intros f2 bos s H1 H2; [lia|].
  destruct f2 as [|f2]; [lia|]. cbn [sub_loop].
  destruct (exec p bos s) as [rest|] eqn:He.
  - destruct (Nat.ltb_spec (length rest) (length s)) as [Hlt|Hge].
    + f_equal. apply IH; lia.
    + destruct s as [|c s]; [reflexivity|]. simpl in H1, H2.
      do 2 f_equal. apply IH; lia.
  - destruct s as [|c s]; [reflexivity|]. simpl in H1, H2.
    f_equal. apply IH; lia.
Qed.

Lemma re_sub_fuel (p : regex) (repl s : str) (fuel : nat) :
  length s < fuel -> sub_loop fuel p repl true s = re_sub p repl s.
Proof. intros H. unfold re_sub. apply sub_loop_enough; lia. Qed.

(** Without a match anywhere, [re.sub] returns its subject. *)
Lemma sub_loop_no_match (p : regex) (repl : str) :
  forall (fuel : nat) (bos : bool) (s : str),
    search_from p bos s = false -> sub_loop fuel p repl bos s = s.
Proof.
  induction fuel as [|fuel IH]; intros bos s H; [reflexivity|].
  cbn [sub_loop]. destruct s as [|c s]; cbn [search_from] in H.
  - destruct (exec p bos []); [discriminate|reflexivity].
  - destruct (exec p bos (c :: s)); [discriminate|].
    f_equal. now apply IH.
Qed.

Lemma re_sub_no_match (p : regex) (repl s : str) :
  re_search p s = false -> re_sub p repl s = s.
Proof. apply sub_loop_no_match. Qed.

Lemma search_from_true (p : regex) : forall (s : str) (bos : bool),
  search_from p bos s = true <->
  exists before rest,
    s = before ++ rest /\ is_Some (exec p (bos && is_empty before) rest).
Proof.
  induction s as [|c s IH]; intros bos; cbn [search_from].
  - destruct (exec p bos []) as [r|] eqn:He.
    + split; [|reflexivity]. intros _. exists [], [].
      rewrite andb_true_r, He. eauto.
    + split; [discriminate|]. intros (before & rest & Hs & Hm).
      symmetry in Hs. apply app_eq_nil in Hs as [-> ->].
      rewrite andb_true_r, He in Hm. now destruct Hm.
  - destruct (exec p bos (c :: s)) as [r|] eqn:He.
    + split; [|reflexivity]. intros _. exists [], (c :: s).
      rewrite andb_true_r, He. eauto.
    + rewrite IH. split.
      * intros (before & rest & -> & Hm). exists (c :: before), rest.
        simpl. rewrite andb_false_r. auto.
      * intros (before & rest & Hs & Hm). destruct before as [|c' before].
        -- simpl in Hs. subst rest. rewrite andb_true_r, He in Hm.
           now destruct Hm.
        -- injection Hs as <- ->. exists before, rest.
           simpl in Hm. rewrite andb_false_r in Hm. auto.
Qed.

(** ** What the patterns match *)

Lemma all_in_Chr (e : char) (s : str) :
  all_in (Chr e) s <-> s = replicate (length s) e.
Proof.
  induction s as [|x s IH]; simpl.
  - split; [reflexivity|constructor].
  - split.
    + intros H. inversion H as [|? ? Hx Hs]; subst.
      apply N.eqb_eq in Hx. subst x. f_equal. now apply IH.
    + intros [= -> Hs]. constructor; [apply N.eqb_refl|now apply IH].
Qed.

Lemma all_in_replicate (e : char) (n : nat) : all_in (Chr e) (replicate n e).
Proof. apply all_in_Chr. now rewrite length_replicate. Qed.

Lemma all_in_Dot (s : str) : all_in Dot s <-> LF ∉ s.
Proof.
  unfold all_in. rewrite Forall_forall. simpl. split.
  - intros H Hin. apply H in Hin. now rewrite N.eqb_refl in Hin.
  - intros H x Hx. apply negb_true_iff, N.eqb_neq. intros ->. exact (H Hx).
Qed.

Lemma at_end_spaces (s : str) : at_end s = true -> spaces s.
Proof.
  destruct s as [|c [|d s]]; simpl; try discriminate.
  - constructor.
  - intros ->%N.eqb_eq. repeat constructor.
Qed.

Lemma spaces_end (ws : str) :
  spaces ws ->
  is_Some (exec [Rep Space 0; Eol] false ws).
Proof.
  intros H. apply exec_Rep. exists ws, []. rewrite app_nil_r.
  split; [reflexivity|]. split; [exact H|]. split; [lia|].
  apply exec_Eol. split; [reflexivity|apply exec_nil].
Qed.

Lemma divider_better_match (s : str) :
  re_match divider_better s = true <->
  exists (ws0 ws1 : str) (a : nat) (label : str) (b : nat) (ws2 : str),
    s = ws0 ++ lit "//" ++ ws1 ++ replicate a (ch "=") ++ label
        ++ replicate b (ch "=") ++ ws2
    /\ spaces ws0 /\ spaces ws1 /\ 3 <= a /\ 3 <= b /\ (LF ∉ label)
    /\ spaces ws2.
Proof.
  rewrite re_match_is_Some. unfold divider_better. rewrite exec_Bol. split.
  - intros [_ H].
    apply exec_Rep in H as (ws0 & r0 & -> & Hws0 & _ & H).
    apply exec_Lit in H as (r1 & -> & H).
    apply exec_Rep in H as (ws1 & r2 & -> & Hws1 & _ & H).
    apply exec_Rep in H as (e1 & r3 & -> & He1 & Ha & H).
    apply exec_Rep in H as (label & r4 & -> & Hlabel & _ & H).
    apply exec_Rep in H as (e2 & r5 & -> & He2 & Hb & H).
    apply exec_Rep in H as (ws2 & r6 & -> & Hws2 & _ & H).
    apply exec_Eol in H as [Hend _].
    apply all_in_Chr in He1, He2. apply all_in_Dot in Hlabel.
    exists ws0, ws1, (length e1), label, (length e2), (ws2 ++ r6).
    rewrite <- He1, <- He2. repeat split; auto.
    apply Forall_app. split; [exact Hws2|now apply at_end_spaces].
  - intros (ws0 & ws1 & a & label & b & ws2 & -> & H0 & H1 & Ha & Hb & Hl & H2).
    split; [reflexivity|].
    apply exec_Rep. eexists ws0, _. repeat split; [exact H0|lia|].
    apply exec_Lit. eexists. split; [reflexivity|].
    apply exec_Rep. eexists ws1, _. repeat split; [exact H1|lia|].
    apply exec_Rep. eexists (replicate a _), _.
    repeat split; [apply all_in_replicate|rewrite length_replicate; lia|].
    apply exec_Rep. eexists label, _.
    repeat split; [now apply all_in_Dot|lia|].
    apply exec_Rep. eexists (replicate b _), _.
    repeat split; [apply all_in_replicate|rewrite length_replicate; lia|].
    rewrite andb_false_r. now apply spaces_end.
Qed.

Lemma divider_better_strip (line : str) :
  re_match divider_better (strip line) = true <-> divider_shape (strip line).
Proof.
  rewrite divider_better_match. split.
  - intros (ws0 & ws1 & a & label & b & ws2 & Hs & H0 & H1 & Ha & Hb & Hl & H2).
    assert (ws0 = []) as ->.
    { eapply strip_no_lead; [exact Hs|exact H0|discriminate]. }
    assert (ws2 = []) as ->.
    { eapply strip_no_trail; [|exact H2].
      rewrite Hs. rewrite !app_assoc. reflexivity. }
    exists ws1, a, label, b. rewrite Hs, app_nil_r. auto.
  - intros (ws & a & label & b & Hs & H1 & Ha & Hb & Hl).
    exists [], ws, a, label, b, []. rewrite app_nil_r.
    repeat split; auto; constructor.
Qed.

Lemma divider_comments_match (s : str) :
  re_match divider_comments s = true <->
  exists (ws0 ws1 rest : str),
    s = ws0 ++ lit "//" ++ ws1 ++ replicate 3 (ch "=") ++ rest
    /\ spaces ws0 /\ spaces ws1.
Proof.
  rewrite re_match_is_Some. unfold divider_comments. rewrite exec_Bol. split.
  - intros [_ H].
    apply exec_Rep in H as (ws0 & r0 & -> & Hws0 & _ & H).
    apply exec_Lit in H as (r1 & -> & H).
    apply exec_Rep in H as (ws1 & r2 & -> & Hws1 & _ & H).
    apply exec_Rep in H as (e1 & r3 & -> & He1 & Ha & _).
    apply all_in_Chr in He1.
    exists ws0, ws1, (replicate (length e1 - 3) (ch "=") ++ r3).
    split; [|auto]. rewrite He1 at 1.
    replace (length e1) with (3 + (length e1 - 3)) at 1 by lia.
    rewrite replicate_add, <- !app_assoc. reflexivity.
  - intros (ws0 & ws1 & rest & -> & H0 & H1).
    split; [reflexivity|].
    apply exec_Rep. eexists ws0, _. repeat split; [exact H0|lia|].
    apply exec_Lit. eexists. split; [reflexivity|].
    apply exec_Rep. eexists ws1, _. repeat split; [exact H1|lia|].
    apply exec_Rep. eexists (replicate 3 _), _.
    repeat split; [apply all_in_replicate|simpl; lia|apply exec_nil].
Qed.

Lemma divider_comments_strip (line : str) :
  re_match divider_comments (strip line) = true <->
  divider_open_shape (strip line).
Proof.
  rewrite divider_comments_match. split.
  - intros (ws0 & ws1 & rest & Hs & H0 & H1).
    assert (ws0 = []) as ->.
    { eapply strip_no_lead; [exact Hs|exact H0|discriminate]. }
    exists ws1, rest. auto.
  - intros (ws & rest & Hs & H1). exists [], ws, rest.
    repeat split; auto; constructor.
Qed.

Lemma noise_prefix_match (s : str) :
  re_match noise_prefix s = true <->
  exists (ws0 marker rest : str),
    s = ws0 ++ lit "//" ++ marker ++ rest
    /\ spaces ws0 /\ marker ∈ noise_markers.
Proof.
  rewrite re_match_is_Some. unfold noise_prefix. rewrite exec_Bol. split.
  - intros [_ H].
    apply exec_Rep in H as (ws0 & r0 & -> & Hws0 & _ & H).
    apply exec_Lit in H as (r1 & -> & H).
    apply exec_Alt in H as (m & r2 & Hm & -> & _).
    exists ws0, m, r2. auto.
  - intros (ws0 & m & rest & -> & H0 & Hm).
    split; [reflexivity|].
    apply exec_Rep. eexists ws0, _. repeat split; [exact H0|lia|].
    apply exec_Lit. eexists. split; [reflexivity|].
    apply exec_Alt. exists m, rest. repeat split; [exact Hm|apply exec_nil].
Qed.

Lemma noise_prefix_strip (line : str) :
  re_match noise_prefix (strip line) = true <-> noise_shape (strip line).
Proof.
  rewrite noise_prefix_match. split.
  - intros (ws0 & m & rest & Hs & H0 & Hm).
    assert (ws0 = []) as ->.
    { eapply strip_no_lead; [exact Hs|exact H0|discriminate]. }
    exists m, rest. auto.
  - intros (m & rest & Hs & Hm). exists [], m, rest.
    repeat split; auto; constructor.
Qed.

Lemma inline_action_search (line : str) :
  re_search inline_action line = true <-> has_action_marker line.
Proof.
  unfold re_search. rewrite search_from_true. unfold inline_action. split.
  - intros (before & r & -> & H).
    apply exec_Rep in H as (ws0 & r0 & -> & Hws0 & _ & H).
    apply exec_Lit in H as (r1 & -> & H).
    apply exec_Rep in H as (ws1 & r2 & -> & Hws1 & _ & H).
    apply exec_Alt in H as (m & r3 & Hm & -> & _).
    exists (before ++ ws0), ws1, m, r3. rewrite <- app_assoc. auto.
  - intros (before & ws & m & after & -> & Hws & Hm).
    exists before, (lit "//" ++ ws ++ m ++ after). split; [reflexivity|].
    apply exec_Rep. exists [], (lit "//" ++ ws ++ m ++ after).
    repeat split; [constructor|simpl; lia|].
    apply exec_Lit. eexists. split; [reflexivity|].
    apply exec_Rep. eexists ws, _. repeat split; [exact Hws|lia|].
    apply exec_Alt. exists m, after. repeat split; [exact Hm|apply exec_nil].
Qed.

(** ** The loop *)

Section LoopFacts.
Context {S : Type}.
Variable body : S -> str -> S * verdict.

Lemma fold_enumerate (lines : list str) :
  forall (g : nat -> nat) (st : S) (acc : list str),
    fold_left
      (fun (acc : S * list str) (il : nat * str) =>
         let '(st, result) := acc in
         let '(st', v) := body st (snd il) in
         (st', result ++ emitted v))
      (imap (fun i line => (g i, line)) lines) (st, acc)
    = (final body st lines, acc ++ run body st lines).
Proof.
  induction lines as [|line lines IH]; intros g st acc; simpl.
  - now rewrite app_nil_r.
  - destruct (body st line) as [st' v] eqn:Hb. simpl.
    rewrite (IH (g ∘ Datatypes.S)). now rewrite <- app_assoc.
Qed.

(** The loop with its accumulator appends what [run] lists. *)
Lemma for_loop_run (st : S) (lines : list str) :
  snd (for_loop body st lines) = run body st lines.
Proof.
  unfold for_loop, enumerate. now rewrite (fold_enumerate lines id).
Qed.

Lemma run_verdicts (lines : list str) : forall st : S,
  run body st lines = concat (map emitted (verdicts body st lines)).
Proof.
  induction lines as [|line lines IH]; intros st; simpl; [reflexivity|].
  destruct (body st line) as [st' v]. simpl. now rewrite IH.
Qed.

Lemma length_verdicts (lines : list str) : forall st : S,
  length (verdicts body st lines) = length lines.
Proof.
  induction lines as [|line lines IH]; intros st; simpl; [reflexivity|].
  destruct (body st line) as [st' v]. simpl. now rewrite IH.
Qed.

Lemma run_app (a b : list str) : forall st : S,
  run body st (a ++ b) = run body st a ++ run body (final body st a) b.
Proof.
  induction a as [|line a IH]; intros st; simpl; [reflexivity|].
  destruct (body st line) as [st' v]. simpl. now rewrite IH, app_assoc.
Qed.

Lemma verdicts_app (a b : list str) : forall st : S,
  verdicts body st (a ++ b)
  = verdicts body st a ++ verdicts body (final body st a) b.
Proof.
  induction a as [|line a IH]; intros st; simpl; [reflexivity|].
  destruct (body st line) as [st' v]. simpl. now rewrite IH.
Qed.

Lemma final_app (a b : list str) : forall st : S,
  final body st (a ++ b) = final body (final body st a) b.
Proof. induction a as [|line a IH]; intros st; simpl; auto. Qed.

(** Turn [i] runs the body on line [i], in the state the turns before it
    left. *)
Lemma verdicts_lookup (lines : list str) : forall (st : S) (i : nat) (v : verdict),
  verdicts body st lines !! i = Some v ->
  exists line,
    lines !! i = Some line
    /\ snd (body (final body st (take i lines)) line) = v.
Proof.
  induction lines as [|line lines IH]; intros st i v; simpl; [discriminate|].
  destruct (body st line) as [st' v'] eqn:Hb. destruct i as [|i]; simpl.
  - intros [= <-]. exists line. now rewrite Hb.
  - intros H. apply IH in H as (l & Hl & Hv). exists l. now rewrite Hb.
Qed.

(** A line whose turn appends [out] is found in the result at the
    position the result had reached. *)
Lemma kept_position (vs : list verdict) (i : nat) (out : str) :
  vs !! i = Some (Keep out) ->
  concat (map emitted vs) !! position vs i = Some out.
Proof.
  intros H. unfold position.
  pose proof (take_drop_middle vs i (Keep out) H) as Hvs.
  set (pre := take i vs) in *. set (post := drop (Datatypes.S i) vs) in *.
  rewrite <- Hvs, map_app, concat_app. simpl.
  now apply list_lookup_middle.
Qed.

Lemma position_le (vs : list verdict) (i j : nat) :
  i <= j -> position vs i <= position vs j.
Proof.
  intros Hij. unfold position.
  rewrite <- (take_drop i (take j vs)), take_take, Nat.min_l by lia.
  rewrite map_app, concat_app, length_app. lia.
Qed.

Lemma position_lt (vs : list verdict) (i j : nat) (out : str) :
  i < j -> vs !! i = Some (Keep out) -> position vs i < position vs j.
Proof.
  intros Hij H. apply Nat.lt_le_trans with (position vs (Datatypes.S i)).
  - unfold position. rewrite (take_S_r vs i (Keep out) H).
    rewrite map_app, concat_app, length_app. simpl. lia.
  - apply position_le. lia.
Qed.

(** When the body only ever appends the line it was given, the result is
    a subsequence of the lines. *)
Lemma run_sublist :
  (forall st line st' out, body st line = (st', Keep out) -> out = line) ->
  forall (lines : list str) (st : S), run body st lines `sublist_of` lines.
Proof.
  intros Hkeep. induction lines as [|line lines IH]; intros st; simpl.
  - constructor.
  - destruct (body st line) as [st' v] eqn:Hb.
    destruct v; simpl; try (apply sublist_cons, IH).
    apply Hkeep in Hb as ->. apply sublist_skip, IH.
Qed.
End LoopFacts.

(** ** One turn of the loop *)

(** The test of the blank line, decided. *)
Lemma blank_test (skip : bool) (s : str) :
  (skip && is_empty s = true /\ skip = true /\ s = [])
  \/ (skip && is_empty s = false /\ (skip = false \/ s <> [])).
Proof.
  destruct skip; [|right; auto].
  destruct s; [left; auto|right]. split; [reflexivity|right; discriminate].
Qed.

(** [body] leaves by the exit whose tests hold. *)
Lemma better_body_turn (st : Better.state) (line : str) :
  Better.turn st line (Better.body st line).
Proof.
  unfold Better.body. cbv zeta.
  destruct (startswith (strip line) (lit "/**")) eqn:Ho;
    [now apply Better.turn_opener|].
  destruct (Better.inside st) eqn:Hi; cbn [andb].
  - destruct (contains (strip line) (lit "*/")) eqn:Hc;
      [now apply Better.turn_closer|now apply Better.turn_inside].
  - destruct (blank_test (Better.skip_next_blank st) (strip line))
      as [(Hb & Hs & He)|[Hb Hne]]; rewrite Hb.
    + now apply Better.turn_blank.
    + destruct (re_match divider_better (strip line)) eqn:Hd;
        [now apply Better.turn_divider|now apply Better.turn_keep].
Qed.

Lemma comments_body_turn (st : Comments.state) (line : str) :
  Comments.turn st line (Comments.body st line).
Proof.
  unfold Comments.body. cbv zeta.
  destruct (startswith (strip line) (lit "/**")) eqn:Ho;
    [now apply Comments.turn_opener|].
  destruct (Comments.in_javadoc st) eqn:Hi; cbn [andb].
  - destruct (contains (strip line) (lit "*/")) eqn:Hc;
      [now apply Comments.turn_closer|now apply Comments.turn_inside].
  - replace (Comments.State false false)
      with (Comments.State (Comments.in_javadoc st) false) by now rewrite Hi.
    destruct (blank_test (Comments.skip_next_blank st) (strip line))
      as [(Hb & Hs & He)|[Hb Hne]]; rewrite Hb.
    + now apply Comments.turn_blank.
    + destruct (re_match divider_comments (strip line)) eqn:Hd;
        [now apply Comments.turn_divider|].
      destruct (re_match noise_prefix (strip line)) eqn:Hn;
        [now apply Comments.turn_noise|now apply Comments.turn_keep].
Qed.

Lemma better_keep_same (st st' : Better.state) (line out : str) :
  Better.body st line = (st', Keep out) -> out = line.
Proof. destruct (better_body_turn st line); congruence. Qed.

Lemma comments_keep_sub (st st' : Comments.state) (line out : str) :
  Comments.body st line = (st', Keep out) ->
  out = re_sub inline_action [] line.
Proof. destruct (comments_body_turn st line); congruence. Qed.

(** ** C10: simplify_better.py only drops whole lines *)

Lemma better_turns_keep_or_drop (lines : list str) : forall st : Better.state,
  Forall2 (fun line v => v = Keep line \/ dropped v)
    lines (verdicts Better.body st lines).
Proof.
  induction lines as [|line lines IH]; intros st; simpl; [constructor|].
  destruct (Better.body st line) as [st' v] eqn:Hb.
  constructor; [|apply IH].
  destruct v; try (right; reflexivity).
  left. now apply better_keep_same in Hb as ->.
Qed.

(** C10. In simplify_better.py the output is a subsequence of the input:
    every turn of the loop either drops its line or appends that very line,
    unchanged. *)
Theorem C10_better_subsequence (lines : list str) :
  Better.simplify_java_file lines `sublist_of` lines
  /\ Forall2 (fun line v => v = Keep line \/ dropped v)
       lines (verdicts Better.body Better.init lines).
Proof.
  split.
  - unfold Better.simplify_java_file. rewrite for_loop_run.
    apply run_sublist. intros st line st' out. apply better_keep_same.
  - apply better_turns_keep_or_drop.
Qed.

(** ** C8: the order of the surviving lines *)

Section Order.
Context {S : Type}.
Variable body : S -> str -> S * verdict.

Lemma order_of_kept (st : S) (lines : list str) (i j : nat) (oi oj : str) :
  i < j ->
  verdicts body st lines !! i = Some (Keep oi) ->
  verdicts body st lines !! j = Some (Keep oj) ->
  run body st lines !! position (verdicts body st lines) i = Some oi
  /\ run body st lines !! position (verdicts body st lines) j = Some oj
  /\ position (verdicts body st lines) i
     < position (verdicts body st lines) j.
Proof.
  intros Hij Hi Hj. rewrite run_verdicts.
  split; [now apply kept_position|].
  split; [now apply kept_position|].
  now apply position_lt with oi.
Qed.
End Order.

(** C8. The surviving lines keep their order, in both scripts: when turn
    [i] of the loop appends [oi] and a later turn [j] appends [oj], then
    [oi] comes from line [i] and [oj] from line [j] (unchanged in
    simplify_better.py, through [re.sub] in simplify_comments.py), each is
    found in the output at the position the result had reached at its turn,
    and the position of [oi] is before that of [oj]. *)
Theorem C8_order_preserved (lines : list str) (i j : nat) (Hij : i < j) :
  (forall oi oj : str,
     let vs := verdicts Better.body Better.init lines in
     let out := Better.simplify_java_file lines in
     vs !! i = Some (Keep oi) -> vs !! j = Some (Keep oj) ->
     lines !! i = Some oi /\ lines !! j = Some oj
     /\ out !! position vs i = Some oi /\ out !! position vs j = Some oj
     /\ position vs i < position vs j)
  /\ (forall oi oj : str,
     let vs := verdicts Comments.body Comments.init lines in
     let out := Comments.simplify_java_file lines in
     vs !! i = Some (Keep oi) -> vs !! j = Some (Keep oj) ->
     (exists li, lines !! i = Some li /\ oi = re_sub inline_action [] li)
     /\ (exists lj, lines !! j = Some lj /\ oj = re_sub inline_action [] lj)
     /\ out !! position vs i = Some oi /\ out !! position vs j = Some oj
     /\ position vs i < position vs j).
Proof.
  split; intros oi oj vs out Hi Hj.
  - assert (Hfrom : forall k o, vs !! k = Some (Keep o) -> lines !! k = Some o).
    { intros k o Hk. apply verdicts_lookup in Hk as (l & Hl & Hv).
      destruct (Better.body _ l) as [st' v] eqn:Hb. simpl in Hv. subst v.
      now apply better_keep_same in Hb as ->. }
    split; [now apply Hfrom|]. split; [now apply Hfrom|].
    unfold out, Better.simplify_java_file. rewrite for_loop_run.
    now apply order_of_kept.
  - assert (Hfrom : forall k o, vs !! k = Some (Keep o) ->
              exists l, lines !! k = Some l /\ o = re_sub inline_action [] l).
    { intros k o Hk. apply verdicts_lookup in Hk as (l & Hl & Hv).
      destruct (Comments.body _ l) as [st' v] eqn:Hb. simpl in Hv. subst v.
      apply comments_keep_sub in Hb. eauto. }
    split; [now apply Hfrom|]. split; [now apply Hfrom|].
    unfold out, Comments.simplify_java_file. rewrite for_loop_run.
    now apply order_of_kept.
Qed.

(** C8 at three lines, the second of which is a divider. *)
Lemma C8_order_preserved_witness :
  let lines := [ln "int a;"; ln "// ===== A ====="; ln "int b; // Set b"] in
  0 < 2
  /\ Better.simplify_java_file lines !! 0 = Some (ln "int a;")
  /\ Better.simplify_java_file lines !! 1 = Some (ln "int b; // Set b")
  /\ Comments.simplify_java_file lines !! 0 = Some (ln "int a;")
  /\ Comments.simplify_java_file lines !! 1 = Some (ln "int b; b").
Proof.
  intros lines.
  assert (H02 : 0 < 2) by lia.
  destruct (C8_order_preserved lines 0 2 H02) as [Hb Hc].
  destruct (Hb (ln "int a;") (ln "int b; // Set b") eq_refl eq_refl)
    as (_ & _ & Hb0 & Hb2 & _).
  destruct (Hc (ln "int a;") (ln "int b; b") eq_refl eq_refl)
    as (_ & _ & Hc0 & Hc2 & _).
  repeat split; assumption.
Defined.

(** ** Inside a doc comment *)

(** A turn that starts inside a comment appends nothing. *)
Lemma better_inside_drops (st : Better.state) (line : str) :
  Better.inside st = true -> dropped (snd (Better.body st line)).
Proof.
  intros Hin.
  destruct (better_body_turn st line); try reflexivity; congruence.
Qed.

Lemma comments_inside_drops (st : Comments.state) (line : str) :
  Comments.in_javadoc st = true -> dropped (snd (Comments.body st line)).
Proof.
  intros Hin.
  destruct (comments_body_turn st line); try reflexivity; congruence.
Qed.

(** Without a closer the scanner stays inside. *)
Lemma better_stays_inside (st : Better.state) (line : str) :
  Better.in_javadoc st = true -> no_closer line ->
  Better.in_javadoc (fst (Better.body st line)) = true.
Proof.
  intros Hj Hc. assert (Hin : Better.inside st = true).
  { unfold Better.inside. now rewrite Hj. }
  unfold no_closer in Hc.
  destruct (better_body_turn st line); simpl; congruence.
Qed.

Lemma comments_stays_inside (st : Comments.state) (line : str) :
  Comments.in_javadoc st = true -> no_closer line ->
  Comments.in_javadoc (fst (Comments.body st line)) = true.
Proof.
  intros Hj Hc. unfold no_closer in Hc.
  destruct (comments_body_turn st line); simpl; congruence.
Qed.

Lemma better_inside_run (mid : list str) : forall st : Better.state,
  Better.in_javadoc st = true -> Forall no_closer mid ->
  Forall dropped (verdicts Better.body st mid)
  /\ Better.in_javadoc (final Better.body st mid) = true.
Proof.
  induction mid as [|line mid IH]; intros st Hi Hmid; simpl.
  - split; [constructor|exact Hi].
  - inversion Hmid as [|? ? Hline Hmid']; subst.
    pose proof (better_stays_inside st line Hi Hline) as Hi'.
    assert (Hd : dropped (snd (Better.body st line))).
    { apply better_inside_drops. unfold Better.inside. now rewrite Hi. }
    destruct (Better.body st line) as [st' v]. simpl in *.
    destruct (IH st' Hi' Hmid') as [Hv Hf]. split; [now constructor|exact Hf].
Qed.

Lemma comments_inside_run (mid : list str) : forall st : Comments.state,
  Comments.in_javadoc st = true -> Forall no_closer mid ->
  Forall dropped (verdicts Comments.body st mid)
  /\ Comments.in_javadoc (final Comments.body st mid) = true.
Proof.
  induction mid as [|line mid IH]; intros st Hi Hmid; simpl.
  - split; [constructor|exact Hi].
  - inversion Hmid as [|? ? Hline Hmid']; subst.
    pose proof (comments_stays_inside st line Hi Hline) as Hi'.
    pose proof (comments_inside_drops st line Hi) as Hd.
    destruct (Comments.body st line) as [st' v]. simpl in *.
    destruct (IH st' Hi' Hmid') as [Hv Hf]. split; [now constructor|exact Hf].
Qed.

Section Dropped.
Context {S : Type}.
Variable body : S -> str -> S * verdict.

(** Turns that all drop their line append nothing. *)
Lemma run_dropped (lines : list str) (st : S) :
  Forall dropped (verdicts body st lines) -> run body st lines = [].
Proof.
  rewrite run_verdicts. induction 1 as [|v vs Hv _ IH]; [reflexivity|].
  simpl. rewrite IH. now destruct v.
Qed.
End Dropped.

(** ** C9: the one-line doc comment *)

(** C9. In both scripts a line whose trimmed content starts with [/**] and
    contains [*/] leaves by the opener check, with the scanner inside the
    comment; the lines after it are dropped up to and including the next one
    that contains [*/], the loop goes on after that one, and when no line
    closes the comment nothing more is written.  The lines [/** a */] and
    [code] give an empty output. *)
Theorem C9_one_line_doc_comment
    (stb : Better.state) (stc : Comments.state)
    (line : str) (mid : list str) (closer : str) (rest : list str) :
  startswith (strip line) (lit "/**") = true ->
  contains (strip line) (lit "*/") = true ->
  Forall no_closer mid ->
  contains (strip closer) (lit "*/") = true ->
  (snd (Better.body stb line) = DropOpener
   /\ Better.in_javadoc (fst (Better.body stb line)) = true
   /\ Forall dropped (verdicts Better.body stb (line :: mid ++ [closer]))
   /\ run Better.body stb (line :: mid ++ closer :: rest)
      = run Better.body
          (final Better.body stb (line :: mid ++ [closer])) rest
   /\ run Better.body stb (line :: mid) = [])
  /\ (snd (Comments.body stc line) = DropOpener
   /\ Comments.in_javadoc (fst (Comments.body stc line)) = true
   /\ Forall dropped (verdicts Comments.body stc (line :: mid ++ [closer]))
   /\ run Comments.body stc (line :: mid ++ closer :: rest)
      = run Comments.body
          (final Comments.body stc (line :: mid ++ [closer])) rest
   /\ run Comments.body stc (line :: mid) = [])
  /\ Better.simplify_java_file [ln "/** a */"; ln "code"] = []
  /\ Comments.simplify_java_file [ln "/** a */"; ln "code"] = [].
Proof.
  intros Ho _ Hmid Hc. split; [|split; [|split; reflexivity]].
  - assert (Hb : Better.body stb line
                 = (Better.State true (Better.in_block_comment stb)
                      (Better.skip_next_blank stb), DropOpener)).
    { destruct (better_body_turn stb line); [reflexivity|congruence..]. }
    set (st1 := Better.State true (Better.in_block_comment stb)
                  (Better.skip_next_blank stb)) in *.
    destruct (better_inside_run mid st1 eq_refl Hmid) as [Hv Hf].
    assert (Hall : Forall dropped
                     (verdicts Better.body stb (line :: mid ++ [closer]))).
    { simpl. rewrite Hb. constructor; [reflexivity|].
      rewrite verdicts_app. apply Forall_app. split; [exact Hv|].
      simpl. destruct (Better.body _ closer) as [st' v] eqn:E.
      constructor; [|constructor].
      change v with (snd (st', v)). rewrite <- E.
      apply better_inside_drops. unfold Better.inside. now rewrite Hf. }
    rewrite Hb. repeat split; try reflexivity; try exact Hall.
    + replace (line :: mid ++ closer :: rest)
        with ((line :: mid ++ [closer]) ++ rest)
        by (simpl; now rewrite <- app_assoc).
      now rewrite run_app, (run_dropped _ _ _ Hall).
    + apply run_dropped. simpl. rewrite Hb. now constructor.
  - assert (Hb : Comments.body stc line
                 = (Comments.State true (Comments.skip_next_blank stc),
                    DropOpener)).
    { destruct (comments_body_turn stc line); [reflexivity|congruence..]. }
    set (st1 := Comments.State true (Comments.skip_next_blank stc)) in *.
    destruct (comments_inside_run mid st1 eq_refl Hmid) as [Hv Hf].
    assert (Hall : Forall dropped
                     (verdicts Comments.body stc (line :: mid ++ [closer]))).
    { simpl. rewrite Hb. constructor; [reflexivity|].
      rewrite verdicts_app. apply Forall_app. split; [exact Hv|].
      simpl. destruct (Comments.body _ closer) as [st' v] eqn:E.
      constructor; [|constructor].
      change v with (snd (st', v)). rewrite <- E.
      now apply comments_inside_drops. }
    rewrite Hb. repeat split; try reflexivity; try exact Hall.
    + replace (line :: mid ++ closer :: rest)
        with ((line :: mid ++ [closer]) ++ rest)
        by (simpl; now rewrite <- app_assoc).
      now rewrite run_app, (run_dropped _ _ _ Hall).
    + apply run_dropped. simpl. rewrite Hb. now constructor.
Qed.

(** C9 at a one-line doc comment followed by code and, later, a plain block
    comment that closes it. *)
Lemma C9_one_line_doc_comment_witness :
  Forall dropped
    (verdicts Better.body Better.init
       [ln "/** a */"; ln "int x;"; ln "int y; /* y */"])
  /\ run Comments.body Comments.init
       [ln "/** a */"; ln "int x;"; ln "int y; /* y */"; ln "int z;"]
     = [ln "int z;"].
Proof.
  destruct (C9_one_line_doc_comment Better.init Comments.init
              (ln "/** a */") [ln "int x;"] (ln "int y; /* y */")
              [ln "int z;"])
    as ((_ & _ & Hb & _) & (_ & _ & _ & Hc & _) & _).
  - reflexivity.
  - reflexivity.
  - repeat constructor.
  - reflexivity.
  - split; [exact Hb|]. etransitivity; [exact Hc|reflexivity].
Defined.

(** ** C5: the closer line *)

(** C5, counterexample. The claim fails on a line that is also an opener:
    inside a comment, the line [/** b */ int x = 1;] contains [*/], yet the
    scanner stays inside and the flag is not set. *)
Lemma C5_counterexample :
  let line := ln "/** b */ int x = 1;" in
  let stb := final Better.body Better.init [ln "/**"] in
  let stc := final Comments.body Comments.init [ln "/**"] in
  contains (strip line) (lit "*/") = true
  /\ Better.inside stb = true
  /\ Better.inside (fst (Better.body stb line)) = true
  /\ Better.skip_next_blank (fst (Better.body stb line)) = false
  /\ Comments.in_javadoc stc = true
  /\ Comments.in_javadoc (fst (Comments.body stc line)) = true
  /\ Comments.skip_next_blank (fst (Comments.body stc line)) = false.
Proof. repeat split. Qed.

(** C5, amended. In both scripts a line met inside a block comment whose
    trimmed content contains [*/] is dropped whole, whatever follows the
    [*/]; when the trimmed content does not also start with [/**], the
    scanner leaves the comment with the skip-next-blank flag set; when it
    does, the line leaves by the opener check, the scanner stays inside
    and the flag is left as it was. *)
Theorem C5_closer_line_dropped
    (stb : Better.state) (stc : Comments.state) (line : str) :
  contains (strip line) (lit "*/") = true ->
  (Better.inside stb = true ->
   dropped (snd (Better.body stb line))
   /\ (startswith (strip line) (lit "/**") = false ->
       Better.body stb line = (Better.State false false true, DropCloser))
   /\ (startswith (strip line) (lit "/**") = true ->
       Better.body stb line
       = (Better.State true (Better.in_block_comment stb)
            (Better.skip_next_blank stb), DropOpener)))
  /\ (Comments.in_javadoc stc = true ->
   dropped (snd (Comments.body stc line))
   /\ (startswith (strip line) (lit "/**") = false ->
       Comments.body stc line = (Comments.State false true, DropCloser))
   /\ (startswith (strip line) (lit "/**") = true ->
       Comments.body stc line
       = (Comments.State true (Comments.skip_next_blank stc), DropOpener))).
Proof.
  intros Hc. split; intros Hi.
  - split; [now apply better_inside_drops|]. split; intros Ho;
      destruct (better_body_turn stb line); first [reflexivity|congruence].
  - split; [now apply comments_inside_drops|]. split; intros Ho;
      destruct (comments_body_turn stc line);
      first [reflexivity|congruence].
Qed.

(** C5 at a closer line with code after the [*/], and at a line that is
    an opener as well, with the flag set. *)
Lemma C5_closer_line_dropped_witness :
  Better.body (Better.State true false false) (ln " */ int x = 1;")
  = (Better.State false false true, DropCloser)
  /\ Comments.body (Comments.State true false) (ln " */ int x = 1;")
     = (Comments.State false true, DropCloser)
  /\ Better.body (Better.State true false true) (ln "/** b */ int x = 1;")
     = (Better.State true false true, DropOpener)
  /\ Comments.body (Comments.State true true) (ln "/** b */ int x = 1;")
     = (Comments.State true true, DropOpener).
Proof.
  destruct (C5_closer_line_dropped (Better.State true false false)
              (Comments.State true false) (ln " */ int x = 1;") eq_refl)
    as [Hb Hc].
  destruct (C5_closer_line_dropped (Better.State true false true)
              (Comments.State true true) (ln "/** b */ int x = 1;") eq_refl)
    as [Hb' Hc'].
  split; [apply Hb; reflexivity|].
  split; [apply Hc; reflexivity|].
  split; [apply Hb'; reflexivity|apply Hc'; reflexivity].
Defined.

(** ** C6: blank suppression *)

Section SuppressionTrace.
Context {S : Type}.
Variable body : S -> str -> S * verdict.
Variables inside skip : S -> bool.
Hypothesis blank_needs_flag : forall st line,
  snd (body st line) = DropBlank -> inside st = false /\ skip st = true.
Hypothesis flag_from_closer : forall st line,
  inside (fst (body st line)) = false -> skip (fst (body st line)) = true ->
  snd (body st line) = DropCloser.

(** A line dropped as blank is the first line read with the flag set, or
    comes right after a closer. *)
Lemma blank_follows_closer (lines : list str) : forall (st : S) (i : nat),
  verdicts body st lines !! i = Some DropBlank ->
  (i = 0 /\ inside st = false /\ skip st = true)
  \/ exists i', i = Datatypes.S i'
                /\ verdicts body st lines !! i' = Some DropCloser.
Proof.
  induction lines as [|line lines IH]; intros st i; simpl; [discriminate|].
  pose proof (blank_needs_flag st line) as Hblank.
  pose proof (flag_from_closer st line) as Hflag.
  destruct (body st line) as [st' v]. simpl in Hblank, Hflag.
  destruct i as [|i]; simpl.
  - intros [= ->]. left. split; [reflexivity|now apply Hblank].
  - intros H. right. apply IH in H as [(-> & Hi & Hs)|(i' & -> & H)].
    + exists 0. split; [reflexivity|]. simpl. f_equal. now apply Hflag.
    + exists (Datatypes.S i'). split; [reflexivity|exact H].
Qed.
End SuppressionTrace.

Lemma strip_spaces (line : str) : spaces line -> strip line = [].
Proof.
  intros H. unfold strip.
  rewrite <- (app_nil_r line), lstrip_spaces by exact H. reflexivity.
Qed.

Lemma better_blank_suppression :
  blank_suppression Better.body Better.inside Better.skip_next_blank
    Better.init.
Proof.
  assert (H1 : forall st line,
             snd (Better.body st line) = DropBlank ->
             strip line = [] /\ Better.inside st = false
             /\ Better.skip_next_blank st = true
             /\ Better.skip_next_blank (fst (Better.body st line)) = false).
  { intros st line.
    destruct (better_body_turn st line); simpl;
      try discriminate. auto. }
  split; [exact H1|]. split; [|split; [|split]].
  - intros st line Hin Hs He.
    destruct (better_body_turn st line) as [Ho| | | |? ? [Hb|Hb]|? ? [Hb|Hb]];
      try reflexivity; try congruence.
    rewrite He in Ho. discriminate.
  - intros lines i H.
    apply (blank_follows_closer Better.body Better.inside
             Better.skip_next_blank) in H as [(_ & _ & Hs)|H];
      [discriminate|exact H|..].
    + intros st line Hv. apply H1 in Hv. tauto.
    + intros st line.
      destruct (better_body_turn st line); simpl;
        first [reflexivity|discriminate|congruence].
  - intros st line Hne. split.
    + intros Hv. apply H1 in Hv. tauto.
    + intros Hin Ho.
      destruct (better_body_turn st line); simpl;
        first [reflexivity|congruence].
  - intros st line Ho.
    destruct (better_body_turn st line);
      first [split; reflexivity|congruence].
Qed.

Lemma comments_blank_suppression :
  blank_suppression Comments.body Comments.in_javadoc
    Comments.skip_next_blank Comments.init.
Proof.
  assert (H1 : forall st line,
             snd (Comments.body st line) = DropBlank ->
             strip line = [] /\ Comments.in_javadoc st = false
             /\ Comments.skip_next_blank st = true
             /\ Comments.skip_next_blank (fst (Comments.body st line)) = false).
  { intros st line.
    destruct (comments_body_turn st line); simpl;
      try discriminate. auto. }
  split; [exact H1|]. split; [|split; [|split]].
  - intros st line Hin Hs He.
    destruct (comments_body_turn st line)
      as [Ho| | | |? ? [Hb|Hb]|? ? [Hb|Hb]|? ? [Hb|Hb]];
      try reflexivity; try congruence.
    rewrite He in Ho. discriminate.
  - intros lines i H.
    apply (blank_follows_closer Comments.body Comments.in_javadoc
             Comments.skip_next_blank) in H as [(_ & _ & Hs)|H];
      [discriminate|exact H|..].
    + intros st line Hv. apply H1 in Hv. tauto.
    + intros st line.
      destruct (comments_body_turn st line); simpl;
        first [reflexivity|discriminate|congruence].
  - intros st line Hne. split.
    + intros Hv. apply H1 in Hv. tauto.
    + intros Hin Ho.
      destruct (comments_body_turn st line); simpl;
        first [reflexivity|congruence].
  - intros st line Ho.
    destruct (comments_body_turn st line);
      first [split; reflexivity|congruence].
Qed.

(** C6, counterexample. The claim fails on a line that opens the next doc
    comment: after the closer, [/** next] is not blank, yet it is dropped
    and the flag stays set. *)
Lemma C6_counterexample :
  let lines := [ln "/**"; ln " */"; ln "/** next"] in
  strip (ln "/** next") <> []
  /\ verdicts Better.body Better.init lines
     = [DropOpener; DropCloser; DropOpener]
  /\ Better.skip_next_blank (final Better.body Better.init lines) = true
  /\ verdicts Comments.body Comments.init lines
     = [DropOpener; DropCloser; DropOpener]
  /\ Comments.skip_next_blank (final Comments.body Comments.init lines) = true.
Proof. repeat split. discriminate. Qed.

(** C6, amended. Blank suppression after a closed doc comment removes at
    most one line, the one right after the closer, and only when it is blank
    after trimming (white space only counts as blank): the lines [/**],
    [foo], [*/], blank, blank, [code] give the second blank line and [code].
    A line that is not blank is never dropped by blank suppression, and it
    clears the flag unless it is itself a doc-comment opener, which is
    dropped by the opener check with the flag left as it was. *)
Theorem C6_blank_suppression :
  blank_suppression Better.body Better.inside Better.skip_next_blank
    Better.init
  /\ blank_suppression Comments.body Comments.in_javadoc
       Comments.skip_next_blank Comments.init
  /\ (forall line : str, spaces line -> strip line = [])
  /\ (let lines := [ln "/**"; ln "foo"; ln "*/"; blank; blank; lit "code"] in
      Better.simplify_java_file lines = [blank; lit "code"]
      /\ Comments.simplify_java_file lines = [blank; lit "code"]
      /\ verdicts Better.body Better.init lines
         = [DropOpener; DropInside; DropCloser; DropBlank;
            Keep (blank); Keep (lit "code")]
      /\ readlines (ln "/**" ++ ln "foo" ++ ln "*/" ++ blank ++ blank
                    ++ lit "code") = lines
      /\ writelines [blank; lit "code"] = blank ++ lit "code").
Proof.
  split; [exact better_blank_suppression|].
  split; [exact comments_blank_suppression|].
  split; [exact strip_spaces|].
  repeat split.
Qed.

(** C6 after a closer, at a line of white space, at a line of code and at
    an opener. *)
Lemma C6_blank_suppression_witness :
  snd (Better.body (Better.State false false true) (lit "   " ++ [LF]))
  = DropBlank
  /\ Comments.skip_next_blank
       (fst (Comments.body (Comments.State false true) (ln "int x;")))
     = false
  /\ Comments.skip_next_blank
       (fst (Comments.body (Comments.State false true) (ln "/** next")))
     = true.
Proof.
  destruct C6_blank_suppression
    as ((_ & Hb & _) & (_ & _ & _ & Hc & Ho) & _).
  split; [apply Hb; reflexivity|]. split.
  - apply Hc; [discriminate|reflexivity|reflexivity].
  - apply (Ho (Comments.State false true) (ln "/** next")). reflexivity.
Defined.

(** ** C4: plain block comments *)

(** C4, counterexample. The claim fails in simplify_comments.py, which has
    no state for plain block comments: after [/*] the scanner is not inside
    a comment, and the lines of the region are written out. *)
Lemma C4_counterexample :
  let lines := [ln "/*"; ln " * a plain block comment"; ln " */"; ln "int x;"] in
  Comments.in_javadoc (final Comments.body Comments.init [ln "/*"]) = false
  /\ Comments.simplify_java_file lines = lines.
Proof. split; reflexivity. Qed.

Lemma comments_enters_javadoc (st : Comments.state) (line : str) :
  Comments.in_javadoc (fst (Comments.body st line)) = true <->
  startswith (strip line) (lit "/**") = true
  \/ (Comments.in_javadoc st = true
      /\ contains (strip line) (lit "*/") = false).
Proof.
  destruct (comments_body_turn st line); simpl;
    (split; [intros Hj|intros [Ho|[Hj Hk]]]); try congruence; auto.
Qed.

Lemma comments_outside_run (lines : list str) : forall st : Comments.state,
  Comments.in_javadoc st = false -> Forall no_opener lines ->
  Comments.in_javadoc (final Comments.body st lines) = false
  /\ Forall outside_comment (verdicts Comments.body st lines).
Proof.
  induction lines as [|line lines IH]; intros st Hi Hl; simpl.
  - split; [exact Hi|constructor].
  - inversion Hl as [|? ? Ho Hl']; subst. unfold no_opener in Ho.
    assert (Hstep : Comments.in_javadoc (fst (Comments.body st line)) = false
                    /\ outside_comment (snd (Comments.body st line))).
    { destruct (comments_body_turn st line); try congruence; simpl;
        (split; [exact Hi|repeat split; discriminate]). }
    destruct (Comments.body st line) as [st' v]. simpl in Hstep.
    destruct Hstep as [Hi' Hv]. destruct (IH st' Hi' Hl') as [Hf Hvs].
    split; [exact Hf|now constructor].
Qed.

(** C4, amended. In simplify_comments.py the block-comment state is a
    JavaDoc state only: after a turn the scanner is inside exactly when the
    line opened a doc comment with [/**], or the scanner was inside already
    and the line has no [*/]; every line met inside is dropped; and as long
    as no line starts with [/**], as in a region opened by a plain [/*], the
    scanner stays outside and no line leaves by a block-comment exit. *)
Theorem C4_javadoc_state_only :
  (forall (st : Comments.state) (line : str),
      Comments.in_javadoc (fst (Comments.body st line)) = true <->
      startswith (strip line) (lit "/**") = true
      \/ (Comments.in_javadoc st = true
          /\ contains (strip line) (lit "*/") = false))
  /\ (forall (st : Comments.state) (line : str),
      Comments.in_javadoc st = true ->
      dropped (snd (Comments.body st line)))
  /\ (forall lines : list str,
      Forall no_opener lines ->
      Comments.in_javadoc (final Comments.body Comments.init lines) = false
      /\ Forall outside_comment
           (verdicts Comments.body Comments.init lines)).
Proof.
  split; [exact comments_enters_javadoc|].
  split; [exact comments_inside_drops|].
  intros lines. now apply comments_outside_run.
Qed.

(** C4 at a plain block comment, and at a line inside a doc comment. *)
Lemma C4_javadoc_state_only_witness :
  Forall outside_comment
    (verdicts Comments.body Comments.init
       [ln "/*"; ln " * a plain block comment"; ln " */"; ln "int x;"])
  /\ dropped (snd (Comments.body (Comments.State true false) (ln " * text"))).
Proof.
  destruct C4_javadoc_state_only as (_ & Hin & Hout).
  split.
  - apply Hout. repeat constructor.
  - apply Hin. reflexivity.
Defined.

(** simplify_better.py declares [in_block_comment] and tests it, but no
    turn of its loop sets it. *)
Lemma better_block_flag_never_set (st : Better.state) (line : str) :
  Better.in_block_comment (fst (Better.body st line)) = true ->
  Better.in_block_comment st = true.
Proof.
  destruct (better_body_turn st line); simpl; congruence.
Qed.

Example better_plain_block_comment_kept :
  let lines := [ln "/*"; ln " * a plain block comment"; ln " */"; ln "int x;"] in
  Better.simplify_java_file lines = lines.
Proof. reflexivity. Qed.

(** ** C3: section dividers *)

Lemma comment_not_opener (r : str) :
  startswith (lit "//" ++ r) (lit "/**") = false.
Proof. reflexivity. Qed.

(** C3, counterexample. The claim fails in simplify_comments.py: a comment
    with a single run of [=] and no closing run has not the shape of the
    claim, and is dropped by divider removal. *)
Lemma C3_counterexample :
  let line := ln "// === notes" in
  ~ divider_shape (strip line)
  /\ snd (Comments.body Comments.init line) = DropDivider
  /\ Comments.simplify_java_file [line] = [].
Proof.
  intros line. split; [|split; reflexivity].
  intros H. apply divider_better_strip in H. discriminate.
Qed.

(** C3, amended. A line is dropped by divider removal exactly when it is
    met outside a block comment and its trimmed content is, in
    simplify_better.py, a [//] comment in which two runs of at least three
    [=] bound a possibly empty label, and in simplify_comments.py a [//]
    comment that begins, after optional white space, with at least three
    [=], closed by a second run or not.  Both scripts drop
    [// ===== SECTION =====] and keep [// = not a divider];
    simplify_better.py keeps [// === notes]. *)
Theorem C3_divider_removal :
  (forall (st : Better.state) (line : str),
      snd (Better.body st line) = DropDivider <->
      Better.inside st = false /\ divider_shape (strip line))
  /\ (forall (st : Comments.state) (line : str),
      snd (Comments.body st line) = DropDivider <->
      Comments.in_javadoc st = false /\ divider_open_shape (strip line))
  /\ Better.simplify_java_file
       [ln "// ===== SECTION ====="; ln "// = not a divider"; ln "// === notes"]
     = [ln "// = not a divider"; ln "// === notes"]
  /\ Comments.simplify_java_file
       [ln "// ===== SECTION ====="; ln "// = not a divider"]
     = [ln "// = not a divider"].
Proof.
  split; [|split; [|split; reflexivity]].
  - intros st line. rewrite <- divider_better_strip. split.
    + destruct (better_body_turn st line); simpl; try discriminate. auto.
    + intros [Hi Hd].
      assert (Hs : divider_shape (strip line)) by now apply divider_better_strip.
      destruct Hs as (ws & a & label & b & Hs & _).
      destruct (better_body_turn st line) as [Ho| | |? ? ? He| |];
        try reflexivity; try congruence.
      * rewrite Hs, comment_not_opener in Ho. discriminate.
      * rewrite Hs in He. discriminate.
  - intros st line. rewrite <- divider_comments_strip. split.
    + destruct (comments_body_turn st line); simpl; try discriminate. auto.
    + intros [Hi Hd].
      assert (Hs : divider_open_shape (strip line))
        by now apply divider_comments_strip.
      destruct Hs as (ws & rest & Hs & _).
      destruct (comments_body_turn st line) as [Ho| | |? ? ? He| | |];
        try reflexivity; try congruence.
      * rewrite Hs, comment_not_opener in Ho. discriminate.
      * rewrite Hs in He. discriminate.
Qed.

(** ** C7: a second pass *)

(** Every line simplify_better.py writes is one it would keep again. *)
Lemma better_run_keepable (lines : list str) : forall st : Better.state,
  Forall better_keepable (run Better.body st lines).
Proof.
  induction lines as [|line lines IH]; intros st; simpl; [constructor|].
  destruct (better_body_turn st line); simpl; try apply IH.
  constructor; [|apply IH]. split; assumption.
Qed.

(** Outside a comment and with the flag down, such lines are all kept. *)
Lemma better_run_id (lines : list str) : forall st : Better.state,
  Better.inside st = false -> Better.skip_next_blank st = false ->
  Forall better_keepable lines -> run Better.body st lines = lines.
Proof.
  induction lines as [|line lines IH]; intros st Hi Hs Hl; simpl;
    [reflexivity|].
  inversion Hl as [|? ? [Ho Hd] Hl']; subst. unfold no_opener in Ho.
  destruct (better_body_turn st line); try congruence.
  simpl. f_equal. apply IH; [exact Hi|reflexivity|exact Hl'].
Qed.

(** simplify_better.py is idempotent on every input. *)
Lemma better_idempotent (lines : list str) :
  Better.simplify_java_file (Better.simplify_java_file lines)
  = Better.simplify_java_file lines.
Proof.
  unfold Better.simplify_java_file. rewrite !for_loop_run.
  apply better_run_id; [reflexivity|reflexivity|apply better_run_keepable].
Qed.

Lemma comments_run_keepable (lines : list str) : forall st : Comments.state,
  Forall no_action_marker lines ->
  Forall comments_keepable (run Comments.body st lines).
Proof.
  induction lines as [|line lines IH]; intros st Hl; simpl; [constructor|].
  inversion Hl as [|? ? Ha Hl']; subst.
  destruct (comments_body_turn st line); simpl; try (now apply IH).
  constructor; [|now apply IH].
  rewrite re_sub_no_match by exact Ha. repeat split; assumption.
Qed.

Lemma comments_run_id (lines : list str) : forall st : Comments.state,
  Comments.in_javadoc st = false -> Comments.skip_next_blank st = false ->
  Forall comments_keepable lines -> run Comments.body st lines = lines.
Proof.
  induction lines as [|line lines IH]; intros st Hi Hs Hl; simpl;
    [reflexivity|].
  inversion Hl as [|? ? (Ho & Hd & Hn & Ha) Hl']; subst.
  unfold no_opener in Ho.
  destruct (comments_body_turn st line); try congruence.
  simpl. rewrite re_sub_no_match by exact Ha.
  f_equal. apply IH; [exact Hi|reflexivity|exact Hl'].
Qed.

(** C7. Running either script on its own output changes nothing, for every
    input none of whose lines has an action-verb marker (the only rule
    that rewrites a line); the claim also excludes doc comments, dividers
    and noise markers, which is not needed, and for simplify_better.py no
    condition is needed at all ([better_idempotent]). *)
Theorem C7_idempotent (lines : list str) :
  Forall no_action_marker lines ->
  Better.simplify_java_file (Better.simplify_java_file lines)
  = Better.simplify_java_file lines
  /\ Comments.simplify_java_file (Comments.simplify_java_file lines)
     = Comments.simplify_java_file lines.
Proof.
  intros Hl. split; [apply better_idempotent|].
  unfold Comments.simplify_java_file. rewrite !for_loop_run.
  apply comments_run_id; [reflexivity|reflexivity|].
  now apply comments_run_keepable.
Qed.

(** C7 at a file with a doc comment, blank lines, a divider and a noise
    comment. *)
Lemma C7_idempotent_witness :
  let lines := [ln "/**"; ln " * doc"; ln " */"; blank; blank;
                ln "// ===== A ====="; ln "int x = 5; // Important: keep";
                ln "//Note: noise"; ln "int y;"] in
  Forall no_action_marker lines
  /\ Comments.simplify_java_file lines
     = [blank; ln "int x = 5; // Important: keep"; ln "int y;"]
  /\ Comments.simplify_java_file (Comments.simplify_java_file lines)
     = Comments.simplify_java_file lines.
Proof.
  intros lines.
  assert (H : Forall no_action_marker lines) by (repeat constructor).
  split; [exact H|]. split; [reflexivity|].
  exact (proj2 (C7_idempotent lines H)).
Defined.

(** The condition of C7 in words: a line has a match of the action-verb
    pattern exactly when it has, somewhere, [//], optional white space and
    one of the markers. *)
Lemma no_action_marker_shape (line : str) :
  no_action_marker line <-> ~ has_action_marker line.
Proof.
  unfold no_action_marker. rewrite <- inline_action_search.
  destruct (re_search inline_action line); split; congruence.
Qed.

(** ** C1: inline fragments *)
Lemma no_slash_no_match (s : str) (bos : bool) :
  ch "/" ∉ s -> search_from inline_action bos s = false.
Proof.
  intros Hs. destruct (search_from inline_action bos s) eqn:E; [|reflexivity].
  apply search_from_true in E as (before & rest & -> & H).
  unfold inline_action in H.
  apply exec_Rep in H as (ws0 & r0 & -> & _ & _ & H).
  apply exec_Lit in H as (r1 & -> & _).
  exfalso. apply Hs. rewrite !elem_of_app. right. right. left. constructor.
Qed.

(** [re.sub] copies a prefix in which no match starts. *)
Lemma sub_loop_prefix (p : regex) (repl : str) (s : str) :
  forall (pre : str) (fuel : nat) (bos : bool),
    (forall k b, k < length pre -> exec p b (drop k pre ++ s) = None) ->
    sub_loop (length pre + fuel) p repl bos (pre ++ s)
    = pre ++ sub_loop fuel p repl (bos && is_empty pre) s.
Proof.
  induction pre as [|c pre IH]; intros fuel bos Hpre.
  - simpl. now rewrite andb_true_r.
  - cbn [length Nat.add sub_loop app].
    pose proof (Hpre 0 bos ltac:(simpl; lia)) as H0.
    rewrite drop_0 in H0. cbn [app] in H0. rewrite H0.
    rewrite IH.
    + simpl. now rewrite andb_false_r.
    + intros k b Hk. apply (Hpre (Datatypes.S k) b). simpl. lia.
Qed.

(** Whatever follows the marker stays on the line. *)
Lemma inline_action_keeps_body (tail : str) :
  ch "/" ∉ tail ->
  re_sub inline_action [] (lit "x = 5; // Set" ++ tail) = lit "x = 5;" ++ tail.
Proof.
  intros Hs. unfold re_sub.
  change (lit "x = 5; // Set" ++ tail)
    with (lit "x = 5;" ++ lit " // Set" ++ tail).
  replace (Datatypes.S (length (lit "x = 5;" ++ lit " // Set" ++ tail)))
    with (length (lit "x = 5;") + Datatypes.S (length (lit " // Set" ++ tail)))
    by (rewrite (length_app (lit "x = 5;")); lia).
  rewrite sub_loop_prefix.
  - f_equal. cbn [sub_loop].
    assert (E : exec inline_action (true && is_empty (lit "x = 5;"))
                  (lit " // Set" ++ tail) = Some tail) by reflexivity.
    rewrite E.
    assert (L : Nat.ltb (length tail) (length (lit " // Set" ++ tail)) = true).
    { apply Nat.ltb_lt. rewrite length_app.
      change (length (lit " // Set")) with 7. lia. }
    rewrite L. cbn [app]. apply sub_loop_no_match.
    now apply no_slash_no_match.
  - intros k b Hk.
    do 6 (destruct k as [|k]; [destruct b; reflexivity|]).
    simpl in Hk. lia.
Qed.

(** C1 (code at the failing input). [re.sub] removes the match only, that
    is the white space, the [//] and the marker: the rest of the comment
    stays on the line.  [x = 5; // Set the value] becomes
    [x = 5; the value], not [x = 5; ]; a line without a marker is
    unchanged. *)
Theorem C1_inline_fragment_body_survives :
  Comments.simplify_java_file [ln "x = 5; // Set the value"]
  = [ln "x = 5; the value"]
  /\ re_sub inline_action [] (lit "x = 5; // Set the value")
     = lit "x = 5; the value"
  /\ Comments.simplify_java_file [ln "x = 5; // Important: keep"]
     = [ln "x = 5; // Important: keep"].
Proof. repeat split. Qed.

(** ** C2: noise markers *)

Lemma comments_noise_shape (st : Comments.state) (line : str) :
  snd (Comments.body st line) = DropNoise -> noise_shape (strip line).
Proof.
  destruct (comments_body_turn st line); simpl; try discriminate.
  intros _. now apply noise_prefix_strip.
Qed.

(** White space between the two slashes and the marker saves the line from
    the noise rule. *)
Lemma comments_noise_needs_no_space
    (st : Comments.state) (line : str) (c : char) (r : str) :
  strip line = lit "//" ++ c :: r -> isspace c = true ->
  snd (Comments.body st line) <> DropNoise.
Proof.
  intros Hs Hc Hv. apply comments_noise_shape in Hv as (m & rest & Hm & Hin).
  rewrite Hs in Hm. apply app_inv_head in Hm.
  unfold noise_markers in Hin. cbn [map] in Hin.
  repeat (apply elem_of_cons in Hin as [->|Hin];
          [injection Hm as -> _; vm_compute in Hc; discriminate|]).
  inversion Hin.
Qed.

(** C2 (code at the failing input). The noise pattern has no [\s*] after
    the [//]: a line is dropped as noise only when the marker follows the
    two slashes at once.  [// Note: this explains things] is kept,
    [//Note: this explains things] is dropped, and
    [// Important: keep me] is kept. *)
Theorem C2_noise_marker_after_space_kept :
  Comments.simplify_java_file [ln "// Note: this explains things"]
  = [ln "// Note: this explains things"]
  /\ Comments.simplify_java_file [ln "//Note: this explains things"] = []
  /\ Comments.simplify_java_file [ln "// Important: keep me"]
     = [ln "// Important: keep me"].
Proof. repeat split. Qed.

(** * Further properties *)

(** ** Reading and writing *)

Lemma concat_readlines_acc (text : str) : forall cur : str,
  concat (readlines_acc cur text) = rev cur ++ text.
Proof.
  induction text as [|c text IH]; intros cur; simpl.
  - destruct cur as [|x cur]; simpl; now rewrite ?app_nil_r.
  - destruct (N.eqb c LF); simpl; rewrite IH; simpl;
      now rewrite <- app_assoc.
Qed.

Lemma readlines_acc_line (s : str) : forall (cur rest : str),
  LF ∉ s -> readlines_acc cur (s ++ rest) = readlines_acc (rev s ++ cur) rest.
Proof.
  induction s as [|c s IH]; intros cur rest Hs; simpl; [reflexivity|].
  apply not_elem_of_cons in Hs as [Hc Hs].
  destruct (N.eqb_spec c LF) as [->|_]; [congruence|].
  rewrite IH by exact Hs. now rewrite <- app_assoc.
Qed.

Lemma not_elem_of_rev (x : char) (s : str) : x ∉ s -> x ∉ rev s.
Proof.
  intros Hs Hin. apply Hs.
  apply list_elem_of_In, in_rev, list_elem_of_In in Hin. exact Hin.
Qed.

Lemma readlines_acc_file (text : str) : forall cur : str,
  LF ∉ cur ->
  match readlines_acc cur text with
  | [] => cur = [] /\ text = []
  | first :: rest =>
      file_lines (first :: rest) /\ exists s, first = rev cur ++ s
  end.
Proof.
  induction text as [|c text IH]; intros cur Hcur; simpl.
  - destruct cur as [|x cur]; [auto|]. split.
    + apply file_last. split.
      * intros E. apply (f_equal (@length char)) in E.
        rewrite length_rev in E. discriminate.
      * now apply not_elem_of_rev.
    + exists []. now rewrite app_nil_r.
  - destruct (N.eqb_spec c LF) as [->|Hc].
    + split.
      * apply file_line.
        -- exists (rev cur). split; [reflexivity|].
           now apply not_elem_of_rev.
        -- specialize (IH [] ltac:(apply not_elem_of_nil)).
           destruct (readlines_acc [] text); [constructor|apply IH].
      * exists [LF]. reflexivity.
    + specialize (IH (c :: cur)).
      destruct (readlines_acc (c :: cur) text) as [|first rest].
      * destruct IH as [[=] _]. apply not_elem_of_cons. auto.
      * destruct IH as [Hf [s ->]]; [apply not_elem_of_cons; auto|].
        split; [exact Hf|]. exists (c :: s). simpl.
        now rewrite <- app_assoc.
Qed.

(** The lines a text is cut into are lines of a text and, put together, the
    text. *)
Lemma cut_file_lines (text : str) : file_lines (readlines_acc [] text).
Proof.
  pose proof (readlines_acc_file text [] ltac:(apply not_elem_of_nil)) as H.
  destruct (readlines_acc [] text); [constructor|apply H].
Qed.

Lemma cut_concat (lines : list str) :
  file_lines lines -> readlines_acc [] (concat lines) = lines.
Proof.
  induction 1 as [|line [Hne Hlf]|line rest (s & -> & Hs) _ IH].
  - reflexivity.
  - simpl. rewrite readlines_acc_line by exact Hlf. simpl.
    rewrite app_nil_r.
    destruct (rev line) as [|x r] eqn:E.
    + apply (f_equal (@rev char)) in E. rewrite rev_involutive in E.
      simpl in E. congruence.
    + rewrite <- E, rev_involutive. reflexivity.
  - simpl. rewrite <- app_assoc, readlines_acc_line by exact Hs. simpl.
    rewrite IH, app_nil_r, rev_involutive. reflexivity.
Qed.

Lemma file_lines_sublist (lines : list str) :
  file_lines lines ->
  forall kept, kept `sublist_of` lines -> file_lines kept.
Proof.
  induction 1 as [|line Hl|line rest Hl _ IH]; intros kept Hk.
  - apply sublist_nil_r in Hk as ->. constructor.
  - inversion Hk as [|? ? ? Hk'|? ? ? Hk']; subst.
    + apply sublist_nil_r in Hk' as ->. now apply file_last.
    + apply sublist_nil_r in Hk' as ->. constructor.
  - inversion Hk as [|? ? ? Hk'|? ? ? Hk']; subst.
    + apply file_line; [exact Hl|now apply IH].
    + now apply IH.
Qed.

(** ** The line ends of the file *)

(** The translation, by the length of the text. *)
Lemma universal_newlines_facts (n : nat) : forall text : str,
  length text <= n ->
  (CR ∉ universal_newlines text)
  /\ length (universal_newlines text) <= length text
  /\ (CR ∉ text -> universal_newlines text = text).
Proof.
  assert (Hnil : (CR ∉ universal_newlines [])
                 /\ length (universal_newlines []) <= length (@nil char)
                 /\ (CR ∉ [] -> universal_newlines [] = [])).
  { split; [apply not_elem_of_nil|]. split; [reflexivity|reflexivity]. }
  induction n as [|n IH]; intros text Hn.
  - destruct text; [exact Hnil|simpl in Hn; lia].
  - destruct text as [|c rest]; [exact Hnil|].
    simpl in Hn. cbn [universal_newlines].
    destruct (N.eqb_spec c CR) as [->|Hc].
    + assert (Hcr : CR ∉ CR :: rest -> False)
        by (intros H; apply H; constructor).
      destruct rest as [|d rest'].
      * split; [|split; [simpl; lia|intros H; now apply Hcr in H]].
        intros H. apply list_elem_of_singleton in H. discriminate.
      * simpl in Hn.
        destruct (IH rest' ltac:(lia)) as (H1 & H2 & _).
        destruct (IH (d :: rest') ltac:(simpl; lia)) as (H1' & H2' & _).
        destruct (N.eqb d LF).
        -- split; [|split; [simpl in *; lia|intros H; now apply Hcr in H]].
           apply not_elem_of_cons. split; [discriminate|exact H1].
        -- split; [|split; [simpl in *; lia|intros H; now apply Hcr in H]].
           apply not_elem_of_cons. split; [discriminate|exact H1'].
    + destruct (IH rest ltac:(lia)) as (H1 & H2 & H3).
      split; [|split].
      * apply not_elem_of_cons. split; [congruence|exact H1].
      * simpl. lia.
      * intros H. apply not_elem_of_cons in H as [_ H]. now rewrite H3.
Qed.

Lemma universal_newlines_no_cr (text : str) : CR ∉ universal_newlines text.
Proof. now apply (universal_newlines_facts (length text)). Qed.

Lemma universal_newlines_length (text : str) :
  length (universal_newlines text) <= length text.
Proof. now apply (universal_newlines_facts (length text)). Qed.

(** A text without carriage returns is read as it is, and only such a
    text. *)
Lemma universal_newlines_fixed (text : str) :
  universal_newlines text = text <-> CR ∉ text.
Proof.
  split.
  - intros H. rewrite <- H. apply universal_newlines_no_cr.
  - now apply (universal_newlines_facts (length text)).
Qed.

Lemma readlines_file_lines (text : str) : file_lines (readlines text).
Proof. apply cut_file_lines. Qed.

(** The lines read, put together, are the text with its line ends
    translated. *)
Lemma writelines_readlines (text : str) :
  writelines (readlines text) = universal_newlines text.
Proof. unfold writelines, readlines. now rewrite concat_readlines_acc. Qed.

(** Lines without carriage returns, written and read again, come back. *)
Lemma readlines_concat (lines : list str) :
  file_lines lines -> CR ∉ concat lines ->
  readlines (concat lines) = lines.
Proof.
  intros Hf Hcr. unfold readlines.
  rewrite (proj2 (universal_newlines_fixed _) Hcr). now apply cut_concat.
Qed.

(** ** Only deletions *)

(** What a match leaves is the end of the subject. *)
Lemma rep_rest (c : cls) (k : cont) (s : str) :
  (forall b t r, k b t = Some r -> exists pre, t = pre ++ r) ->
  forall n bos r, rep c n k bos s = Some r -> exists pre, s = pre ++ r.
Proof.
  intros Hk. induction s as [|x s IH]; intros n bos r; cbn [rep].
  - destruct n; [apply Hk|discriminate].
  - assert (Hstop : match n with 0 => k bos (x :: s) | _ => None end = Some r ->
                    exists pre, x :: s = pre ++ r).
    { destruct n; [apply Hk|discriminate]. }
    destruct (in_cls c x); [|assumption].
    destruct (rep c (pred n) k false s) as [r'|] eqn:Hr; [|assumption].
    intros [= <-]. apply IH in Hr as [pre ->]. now exists (x :: pre).
Qed.

Lemma alt_rest (alts : list str) (k : cont) (bos : bool) (s r : str) :
  (forall b t r, k b t = Some r -> exists pre, t = pre ++ r) ->
  alt alts k bos s = Some r -> exists pre, s = pre ++ r.
Proof.
  intros Hk. induction alts as [|a alts IH]; cbn [alt]; [discriminate|].
  destruct (eat a s) as [s'|] eqn:He; [|assumption].
  destruct (k (bos && is_empty a) s') as [r'|] eqn:Hr; [|assumption].
  intros [= <-]. apply Hk in Hr as [pre ->]. apply eat_Some in He as ->.
  exists (a ++ pre). now rewrite app_assoc.
Qed.

Lemma exec_rest (p : regex) : forall (bos : bool) (s r : str),
  exec p bos s = Some r -> exists pre, s = pre ++ r.
Proof.
  induction p as [|a p IH]; intros bos s r; cbn [exec].
  - intros [= <-]. now exists [].
  - destruct a as [| |l|c n|alts].
    + destruct bos; [apply IH|discriminate].
    + destruct (at_end s); [apply IH|discriminate].
    + destruct (eat l s) as [s'|] eqn:He; [|discriminate].
      intros H. apply IH in H as [pre ->]. apply eat_Some in He as ->.
      exists (l ++ pre). now rewrite app_assoc.
    + apply rep_rest. exact IH.
    + apply alt_rest. exact IH.
Qed.

(** One turn of the loop of [re.sub]. *)
Lemma sub_loop_step (fuel : nat) (p : regex) (repl : str) (b : bool) (s : str) :
  sub_loop (Datatypes.S fuel) p repl b s
  = match exec p b s with
    | Some rest =>
        if Nat.ltb (length rest) (length s)
        then repl ++ sub_loop fuel p repl false rest
        else match s with
             | [] => repl
             | c :: s' => repl ++ c :: sub_loop fuel p repl false s'
             end
    | None =>
        match s with
        | [] => []
        | c :: s' => c :: sub_loop fuel p repl false s'
        end
    end.
Proof. reflexivity. Qed.

(** [re.sub] with an empty replacement only deletes characters. *)
Lemma sub_loop_deletes (p : regex) : forall (fuel : nat) (bos : bool) (s : str),
  sub_loop fuel p [] bos s `sublist_of` s.
Proof.
  induction fuel as [|fuel IH]; intros bos s; cbn [sub_loop]; [reflexivity|].
  destruct (exec p bos s) as [rest|] eqn:He.
  - destruct (Nat.ltb (length rest) (length s)).
    + apply exec_rest in He as [pre ->]. cbn [app].
      apply sublist_inserts_l, IH.
    + destruct s as [|c s]; [reflexivity|]. cbn [app].
      apply sublist_skip, IH.
  - destruct s as [|c s]; [reflexivity|]. apply sublist_skip, IH.
Qed.

Lemma re_sub_deletes (p : regex) (s : str) : re_sub p [] s `sublist_of` s.
Proof. apply sub_loop_deletes. Qed.

Section Deletions.
Context {S : Type}.
Variable body : S -> str -> S * verdict.
Hypothesis keeps_less : forall st line st' out,
  body st line = (st', Keep out) -> out `sublist_of` line.

(** When every line written is a subsequence of the line read, the text
    written is a subsequence of the text read. *)
Lemma run_deletes (lines : list str) : forall st : S,
  concat (run body st lines) `sublist_of` concat lines.
Proof.
  induction lines as [|line lines IH]; intros st; simpl; [constructor|].
  destruct (body st line) as [st' v] eqn:Hb.
  destruct v; simpl; try (apply sublist_inserts_l, IH).
  apply sublist_app; [now apply keeps_less in Hb|apply IH].
Qed.

(** No more lines are written than were read. *)
Lemma run_length (lines : list str) : forall st : S,
  length (run body st lines) <= length lines.
Proof.
  induction lines as [|line lines IH]; intros st; simpl; [lia|].
  destruct (body st line) as [st' v].
  specialize (IH st'). destruct v; simpl; lia.
Qed.
End Deletions.

Lemma better_deletes (text : str) :
  better_simplify_text text `sublist_of` universal_newlines text.
Proof.
  unfold better_simplify_text, Better.simplify_java_file.
  rewrite for_loop_run, <- (writelines_readlines text).
  apply run_deletes. intros st line st' out H.
  now apply better_keep_same in H as ->.
Qed.

Lemma comments_deletes (text : str) :
  comments_simplify_text text `sublist_of` universal_newlines text.
Proof.
  unfold comments_simplify_text, Comments.simplify_java_file.
  rewrite for_loop_run, <- (writelines_readlines text).
  apply run_deletes. intros st line st' out H.
  apply comments_keep_sub in H as ->. apply re_sub_deletes.
Qed.

(** X2. Both scripts only delete from the text they read: the text handed
    to the writer is a subsequence, character by character and in order, of
    the content of the file with its line ends translated as [open] does,
    and it is never longer than the content of the file. *)
Theorem X2_output_is_subsequence_of_text (text : str) :
  better_simplify_text text `sublist_of` universal_newlines text
  /\ comments_simplify_text text `sublist_of` universal_newlines text
  /\ length (better_simplify_text text) <= length text
  /\ length (comments_simplify_text text) <= length text.
Proof.
  pose proof (better_deletes text) as Hb.
  pose proof (comments_deletes text) as Hc.
  pose proof (universal_newlines_length text) as Hl.
  repeat split; try assumption.
  - apply sublist_length in Hb. lia.
  - apply sublist_length in Hc. lia.
Qed.

(** ** What is left, and what is left alone *)

Lemma better_simplify_sublist (lines : list str) :
  Better.simplify_java_file lines `sublist_of` lines.
Proof.
  unfold Better.simplify_java_file. rewrite for_loop_run.
  apply run_sublist. intros st line st' out. apply better_keep_same.
Qed.

(** The lines simplify_better.py writes are the lines of the text it
    writes. *)
Lemma better_reread (text : str) :
  readlines (better_simplify_text text)
  = Better.simplify_java_file (readlines text).
Proof.
  apply readlines_concat.
  - apply file_lines_sublist with (readlines text).
    + apply readlines_file_lines.
    + apply better_simplify_sublist.
  - intros H. apply (universal_newlines_no_cr text).
    apply elem_of_sublist with (better_simplify_text text);
      [exact H|apply better_deletes].
Qed.

Lemma better_simplify_keepable (lines : list str) :
  Forall better_keepable (Better.simplify_java_file lines).
Proof.
  unfold Better.simplify_java_file. rewrite for_loop_run.
  apply better_run_keepable.
Qed.

Lemma better_simplify_id (lines : list str) :
  Forall better_keepable lines -> Better.simplify_java_file lines = lines.
Proof.
  intros H. unfold Better.simplify_java_file. rewrite for_loop_run.
  now apply better_run_id.
Qed.

Lemma better_fixed (text : str) :
  better_simplify_text text = universal_newlines text <->
  Forall better_keepable (readlines text).
Proof.
  split.
  - intros H. rewrite <- (writelines_readlines text) in H.
    apply (f_equal (readlines_acc [])) in H.
    unfold better_simplify_text, writelines in H.
    rewrite !cut_concat in H.
    + rewrite <- H. apply better_simplify_keepable.
    + apply readlines_file_lines.
    + apply file_lines_sublist with (readlines text);
        [apply readlines_file_lines|apply better_simplify_sublist].
  - intros H. unfold better_simplify_text.
    rewrite better_simplify_id by exact H. apply writelines_readlines.
Qed.

(** X3. simplify_better.py hands to the writer the very text it read (the
    content of the file with its line ends translated as [open] does)
    exactly when no line read starts, once trimmed, with [/**] and none is
    a divider; and that text is the content of the file itself exactly when,
    besides, the content has no carriage return. *)
Theorem X3_better_fixed_points (text : str) :
  (better_simplify_text text = universal_newlines text <->
   Forall better_keepable (readlines text))
  /\ (better_simplify_text text = text <->
      (CR ∉ text) /\ Forall better_keepable (readlines text)).
Proof.
  split; [apply better_fixed|]. split.
  - intros H.
    assert (Hcr : CR ∉ text).
    { intros Hin. rewrite <- H in Hin.
      apply (universal_newlines_no_cr text).
      apply elem_of_sublist with (better_simplify_text text);
        [exact Hin|apply better_deletes]. }
    split; [exact Hcr|]. apply better_fixed.
    now rewrite (proj2 (universal_newlines_fixed text) Hcr).
  - intros [Hcr H]. apply better_fixed in H.
    now rewrite (proj2 (universal_newlines_fixed text) Hcr) in H.
Qed.

(** A match of the action-verb pattern is never empty. *)
Lemma rep_shrinks (c : cls) (k : cont) (s : str) :
  (forall b t r, k b t = Some r -> length r < length t) ->
  forall n bos r, rep c n k bos s = Some r -> length r < length s.
Proof.
  intros Hk. induction s as [|x s IH]; intros n bos r; cbn [rep].
  - destruct n; [apply Hk|discriminate].
  - assert (Hstop : match n with 0 => k bos (x :: s) | _ => None end = Some r ->
                    length r < length (x :: s)).
    { destruct n; [apply Hk|discriminate]. }
    destruct (in_cls c x); [|assumption].
    destruct (rep c (pred n) k false s) as [r'|] eqn:Hr; [|assumption].
    intros [= <-]. apply IH in Hr. simpl. lia.
Qed.

Lemma inline_action_shrinks (b : bool) (s r : str) :
  exec inline_action b s = Some r -> length r < length s.
Proof.
  change (exec inline_action b s)
    with (rep Space 0
            (exec [Lit (lit "//"); Rep Space 0; Alt action_markers]) b s).
  apply rep_shrinks. intros b' t r'.
  change (exec [Lit (lit "//"); Rep Space 0; Alt action_markers] b' t)
    with (match eat (lit "//") t with
          | Some s' => exec [Rep Space 0; Alt action_markers]
                         (b' && is_empty (lit "//")) s'
          | None => None
          end).
  destruct (eat (lit "//") t) as [t'|] eqn:He; [|discriminate].
  intros H. apply exec_suffix in H. apply eat_Some in He as ->.
  rewrite length_app. simpl. lia.
Qed.

(** With a match somewhere, [re.sub] with an empty replacement makes the
    subject shorter. *)
Lemma sub_loop_shrinks (p : regex) :
  (forall b s r, exec p b s = Some r -> length r < length s) ->
  forall (fuel : nat) (b : bool) (s : str),
    length s < fuel -> search_from p b s = true ->
    length (sub_loop fuel p [] b s) < length s.
Proof.
  intros Hp. induction fuel as [|fuel IH]; intros b s Hlen Hs; [lia|].
  rewrite sub_loop_step.
  assert (Hs' : match exec p b s with
                | Some _ => True
                | None => exists c s', s = c :: s'
                                       /\ search_from p false s' = true
                end).
  { destruct s as [|c s]; cbn [search_from] in Hs;
      destruct (exec p b _); try discriminate; eauto. }
  destruct (exec p b s) as [rest|] eqn:He.
  - apply Hp in He as Hlt.
    replace (length rest <? length s) with true
      by (symmetry; now apply Nat.ltb_lt).
    cbn [app]. pose proof (sub_loop_deletes p fuel false rest) as Hsub.
    apply sublist_length in Hsub. lia.
  - destruct Hs' as (c & s' & -> & Hs'). simpl in Hlen |- *.
    specialize (IH false s' ltac:(lia) Hs'). lia.
Qed.

Lemma re_sub_fixed (line : str) :
  re_sub inline_action [] line = line -> no_action_marker line.
Proof.
  intros H. unfold no_action_marker.
  destruct (re_search inline_action line) eqn:E; [|reflexivity].
  pose proof (sub_loop_shrinks inline_action inline_action_shrinks
                (Datatypes.S (length line)) true line ltac:(lia) E) as Hlt.
  unfold re_sub in H. rewrite H in Hlt. lia.
Qed.

Lemma file_lines_nonempty (lines : list str) :
  file_lines lines -> Forall (fun line => line <> []) lines.
Proof.
  induction 1 as [|line [Hne _]|line rest (s & -> & _) _ IH];
    constructor; auto.
  destruct s; discriminate.
Qed.

Lemma comments_run_deletes (lines : list str) (st : Comments.state) :
  concat (run Comments.body st lines) `sublist_of` concat lines.
Proof.
  apply run_deletes. intros st0 line st' out H.
  apply comments_keep_sub in H as ->. apply re_sub_deletes.
Qed.

(** When simplify_comments.py writes as much as it read, it kept every
    line. *)
Lemma comments_run_fixed (lines : list str) : forall st : Comments.state,
  Forall (fun line => line <> []) lines ->
  concat (run Comments.body st lines) = concat lines ->
  Forall comments_keepable lines.
Proof.
  induction lines as [|line lines IH]; intros st Hne H; [constructor|].
  inversion Hne as [|? ? Hline Hne']; subst. simpl in H.
  pose proof (comments_run_deletes lines) as Hdel.
  assert (Hdrop : forall st', concat (run Comments.body st' lines)
                              <> line ++ concat lines).
  { intros st' E. specialize (Hdel st'). apply sublist_length in Hdel.
    rewrite E, length_app in Hdel. destruct line; [congruence|].
    simpl in Hdel. lia. }
  destruct (comments_body_turn st line) as [| | | | | |Ho Hj Hb Hd Hn];
    simpl in H; try (now apply Hdrop in H).
  pose proof (re_sub_deletes inline_action line) as Hsub.
  apply sublist_length in Hsub.
  specialize (Hdel (Comments.State (Comments.in_javadoc st) false)).
  apply sublist_length in Hdel.
  apply app_inj_1 in H as [Hl Hrest].
  - constructor; [|now apply IH in Hrest].
    repeat split; try assumption. now apply re_sub_fixed.
  - apply (f_equal (@length char)) in H. rewrite !length_app in H. lia.
Qed.

Lemma comments_fixed (text : str) :
  comments_simplify_text text = universal_newlines text <->
  Forall comments_keepable (readlines text).
Proof.
  unfold comments_simplify_text, Comments.simplify_java_file.
  rewrite for_loop_run. split.
  - intros H. apply comments_run_fixed with Comments.init.
    + apply file_lines_nonempty, readlines_file_lines.
    + unfold writelines in H. rewrite H.
      symmetry. apply writelines_readlines.
  - intros H. rewrite comments_run_id by auto. apply writelines_readlines.
Qed.

(** X4. simplify_comments.py hands to the writer the very text it read
    (the content of the file with its line ends translated as [open] does)
    exactly when no line read starts, once trimmed, with [/**], is a
    divider or a noise comment for the script's patterns, or has a match of
    the action-verb pattern; and that text is the content of the file itself
    exactly when, besides, the content has no carriage return. *)
Theorem X4_comments_fixed_points (text : str) :
  (comments_simplify_text text = universal_newlines text <->
   Forall comments_keepable (readlines text))
  /\ (comments_simplify_text text = text <->
      (CR ∉ text) /\ Forall comments_keepable (readlines text)).
Proof.
  split; [apply comments_fixed|]. split.
  - intros H.
    assert (Hcr : CR ∉ text).
    { intros Hin. rewrite <- H in Hin.
      apply (universal_newlines_no_cr text).
      apply elem_of_sublist with (comments_simplify_text text);
        [exact Hin|apply comments_deletes]. }
    split; [exact Hcr|]. apply comments_fixed.
    now rewrite (proj2 (universal_newlines_fixed text) Hcr).
  - intros [Hcr H]. apply comments_fixed in H.
    now rewrite (proj2 (universal_newlines_fixed text) Hcr) in H.
Qed.

(** X5. No line that simplify_better.py writes starts, once trimmed, with
    [/**] or is a divider, whatever the input: in the list it builds and in
    the text it writes, read again. *)
Theorem X5_better_leaves_no_opener_or_divider :
  (forall lines : list str,
      Forall better_keepable (Better.simplify_java_file lines))
  /\ (forall text : str,
      Forall better_keepable (readlines (better_simplify_text text))).
Proof.
  split; [exact better_simplify_keepable|].
  intros text. rewrite better_reread. apply better_simplify_keepable.
Qed.

(** X6. Running simplify_better.py on the file it wrote gives that file
    again, for every input text. *)
Theorem X6_better_idempotent_on_files (text : str) :
  better_simplify_text (better_simplify_text text)
  = better_simplify_text text.
Proof.
  unfold better_simplify_text at 1. rewrite better_reread.
  rewrite better_idempotent. reflexivity.
Qed.

(** ** The two scripts side by side *)

Lemma better_block_flag_down (lines : list str) : forall st : Better.state,
  Better.in_block_comment st = false ->
  Better.in_block_comment (final Better.body st lines) = false.
Proof.
  induction lines as [|line lines IH]; intros st Hst; simpl; [exact Hst|].
  apply IH.
  destruct (Better.in_block_comment (fst (Better.body st line))) eqn:E;
    [|reflexivity].
  apply better_block_flag_never_set in E. congruence.
Qed.

(** X7. In simplify_better.py the flag [in_block_comment] is down when any
    turn of any run begins, so that [in_javadoc or in_block_comment] is
    [in_javadoc] there. *)
Theorem X7_better_block_flag_stays_down (lines : list str) (i : nat) :
  let st := final Better.body Better.init (take i lines) in
  Better.in_block_comment st = false
  /\ Better.inside st = Better.in_javadoc st.
Proof.
  intros st.
  assert (H : Better.in_block_comment st = false)
    by now apply better_block_flag_down.
  split; [exact H|]. unfold Better.inside. rewrite H. apply orb_false_r.
Qed.

(** A divider for simplify_better.py is one for simplify_comments.py. *)
Lemma divider_better_comments (s : str) :
  re_match divider_better s = true -> re_match divider_comments s = true.
Proof.
  rewrite divider_better_match, divider_comments_match.
  intros (ws0 & ws1 & a & label & b & ws2 & -> & H0 & H1 & Ha & _).
  exists ws0, ws1,
    (replicate (a - 3) (ch "=") ++ label ++ replicate b (ch "=") ++ ws2).
  split; [|auto]. replace a with (3 + (a - 3)) at 1 by lia.
  rewrite replicate_add, <- !app_assoc. reflexivity.
Qed.

Lemma same_state_inside (stb : Better.state) (stc : Comments.state) :
  same_state stb stc -> Better.inside stb = Comments.in_javadoc stc.
Proof.
  intros (Hj & Hb & _). unfold Better.inside. rewrite Hb, Hj.
  apply orb_false_r.
Qed.

(** One turn of each script on the same line, from states that say the
    same. *)
Lemma same_state_turn (stb : Better.state) (stc : Comments.state) (line : str) :
  same_state stb stc ->
  agree (snd (Better.body stb line)) (snd (Comments.body stc line))
  /\ same_state (fst (Better.body stb line)) (fst (Comments.body stc line)).
Proof.
  intros Hst. pose proof (same_state_inside _ _ Hst) as Hin.
  destruct Hst as (Hj & Hbc & Hs).
  destruct (better_body_turn stb line) as [?|? ? ?|? ? ?|? ? ? ?|? ? Hb Hd|? ? Hb ?];
    destruct (comments_body_turn stc line)
      as [?|? ? ?|? ? ?|? ? ? ?|? ? Hc ?|? ? Hc ? ?|? ? Hc ? ?];
    try congruence;
    try (destruct Hb; congruence); try (destruct Hc; congruence);
    try (apply divider_better_comments in Hd; congruence);
    (split; [simpl; eauto|repeat split; simpl; congruence]).
Qed.

Lemma same_state_run (lines : list str) :
  forall (stb : Better.state) (stc : Comments.state),
    same_state stb stc ->
    Forall2 agree (verdicts Better.body stb lines)
      (verdicts Comments.body stc lines).
Proof.
  induction lines as [|line lines IH]; intros stb stc Hst; simpl;
    [constructor|].
  destruct (same_state_turn stb stc line Hst) as [Hv Hst'].
  destruct (Better.body stb line) as [stb' vb].
  destruct (Comments.body stc line) as [stc' vc].
  constructor; [exact Hv|now apply IH].
Qed.

(** X8. On the same input the two scripts go through the same comment
    states: turn by turn, a line that simplify_comments.py drops as opener,
    closer, inside a comment or suppressed blank is dropped the same way by
    simplify_better.py; a line it drops as a divider is dropped as a divider
    or kept by simplify_better.py; and a line it drops as noise or writes is
    kept by simplify_better.py. *)
Theorem X8_scripts_agree_on_comments (lines : list str) :
  Forall2 agree (verdicts Better.body Better.init lines)
    (verdicts Comments.body Comments.init lines).
Proof. apply same_state_run. repeat split. Qed.

Lemma same_rules_turn (stb : Better.state) (stc : Comments.state) (line : str) :
  same_state stb stc -> same_rules line ->
  snd (Comments.body stc line) = snd (Better.body stb line)
  /\ same_state (fst (Better.body stb line)) (fst (Comments.body stc line)).
Proof.
  intros Hst (Hd & Hn & Ha). pose proof (same_state_inside _ _ Hst) as Hin.
  destruct Hst as (Hj & Hbc & Hs).
  destruct (better_body_turn stb line) as [?|? ? ?|? ? ?|? ? ? ?|? ? Hb ?|? ? Hb ?];
    destruct (comments_body_turn stc line)
      as [?|? ? ?|? ? ?|? ? ? ?|? ? Hc ?|? ? Hc ? ?|? ? Hc ? ?];
    try congruence;
    try (destruct Hb; congruence); try (destruct Hc; congruence);
    (split; [simpl; rewrite ?re_sub_no_match by exact Ha; reflexivity
            |repeat split; simpl; congruence]).
Qed.

Lemma same_rules_run (lines : list str) :
  forall (stb : Better.state) (stc : Comments.state),
    same_state stb stc -> Forall same_rules lines ->
    verdicts Comments.body stc lines = verdicts Better.body stb lines.
Proof.
  induction lines as [|line lines IH]; intros stb stc Hst Hl; simpl;
    [reflexivity|].
  inversion Hl as [|? ? Hline Hl']; subst.
  destruct (same_rules_turn stb stc line Hst Hline) as [Hv Hst'].
  destruct (Better.body stb line) as [stb' vb].
  destruct (Comments.body stc line) as [stc' vc].
  simpl in Hv. subst vc. f_equal. now apply IH.
Qed.

(** X9. On an input all of whose lines are dividers for both scripts or for
    neither, have no noise marker at the [//] and no match of the
    action-verb pattern, the two scripts do the same at every turn and write
    the same lines. *)
Theorem X9_scripts_equal_without_extra_rules (lines : list str) :
  Forall same_rules lines ->
  verdicts Comments.body Comments.init lines
  = verdicts Better.body Better.init lines
  /\ Comments.simplify_java_file lines = Better.simplify_java_file lines.
Proof.
  intros Hl.
  assert (Hv : verdicts Comments.body Comments.init lines
               = verdicts Better.body Better.init lines).
  { apply same_rules_run; [repeat split|exact Hl]. }
  split; [exact Hv|].
  unfold Comments.simplify_java_file, Better.simplify_java_file.
  now rewrite !for_loop_run, !run_verdicts, Hv.
Qed.

(** X9 at a doc comment, a closed divider and two comments that both
    scripts keep. *)
Lemma X9_scripts_equal_without_extra_rules_witness :
  let lines := [ln "/** doc"; ln " */"; blank; ln "// ===== A =====";
                ln "int x = 5; // Important: keep"; ln "// Note: kept"] in
  Comments.simplify_java_file lines = Better.simplify_java_file lines.
Proof.
  intros lines.
  apply (proj2 (X9_scripts_equal_without_extra_rules lines
                  ltac:(repeat constructor))).
Defined.

(** ** A closed doc comment *)

(** Inside a comment the skip-next-blank flag plays no part. *)
Lemma better_inside_flag (lines : list str) : forall (b s s' : bool),
  run Better.body (Better.State true b s) lines
  = run Better.body (Better.State true b s') lines.
Proof.
  induction lines as [|line lines IH]; intros b s s'; simpl; [reflexivity|].
  unfold Better.body. cbv zeta. cbn [Better.inside Better.in_javadoc
    Better.in_block_comment Better.skip_next_blank orb andb].
  destruct (startswith (strip line) (lit "/**")); [apply IH|].
  destruct (contains (strip line) (lit "*/")); [reflexivity|apply IH].
Qed.

Lemma comments_inside_flag (lines : list str) : forall (s s' : bool),
  run Comments.body (Comments.State true s) lines
  = run Comments.body (Comments.State true s') lines.
Proof.
  induction lines as [|line lines IH]; intros s s'; simpl; [reflexivity|].
  unfold Comments.body. cbv zeta.
  cbn [Comments.in_javadoc Comments.skip_next_blank andb].
  destruct (startswith (strip line) (lit "/**")); [apply IH|].
  destruct (contains (strip line) (lit "*/")); [reflexivity|apply IH].
Qed.

(** After a closer, the loop goes on as at the start of a file, less one
    blank line. *)
Lemma better_after_closer (rest : list str) :
  run Better.body (Better.State false false true) rest
  = run Better.body Better.init (after_block rest).
Proof.
  destruct rest as [|line rest]; [reflexivity|]. cbn [after_block run].
  unfold Better.body. cbv zeta. cbn [Better.inside Better.in_javadoc
    Better.in_block_comment Better.skip_next_blank Better.init orb andb].
  destruct (is_empty (strip line)) eqn:He.
  - apply is_empty_nil in He. rewrite He. reflexivity.
  - cbn [run]. unfold Better.body. cbv zeta. cbn [Better.inside
      Better.in_javadoc Better.in_block_comment Better.skip_next_blank
      Better.init orb andb].
    destruct (startswith (strip line) (lit "/**")); [|reflexivity].
    cbn [emitted app]. apply better_inside_flag.
Qed.

Lemma comments_after_closer (rest : list str) :
  run Comments.body (Comments.State false true) rest
  = run Comments.body Comments.init (after_block rest).
Proof.
  destruct rest as [|line rest]; [reflexivity|]. cbn [after_block run].
  unfold Comments.body. cbv zeta.
  cbn [Comments.in_javadoc Comments.skip_next_blank Comments.init andb].
  destruct (is_empty (strip line)) eqn:He.
  - apply is_empty_nil in He. rewrite He. reflexivity.
  - cbn [run]. unfold Comments.body. cbv zeta.
    cbn [Comments.in_javadoc Comments.skip_next_blank Comments.init andb].
    destruct (startswith (strip line) (lit "/**")); [|reflexivity].
    cbn [emitted app]. apply comments_inside_flag.
Qed.

(** A doc comment, from its opener to its closer, is dropped from any state
    and leaves the scanner outside with the flag set. *)
Lemma better_block (st : Better.state) (opener : str) (mid : list str)
    (closer : str) :
  startswith (strip opener) (lit "/**") = true ->
  Forall no_closer mid ->
  contains (strip closer) (lit "*/") = true -> no_opener closer ->
  run Better.body st (opener :: mid ++ [closer]) = []
  /\ final Better.body st (opener :: mid ++ [closer])
     = Better.State false false true.
Proof.
  intros Ho Hmid Hc Hno.
  assert (Hb : Better.body st opener
               = (Better.State true (Better.in_block_comment st)
                    (Better.skip_next_blank st), DropOpener)).
  { destruct (better_body_turn st opener); [reflexivity|congruence..]. }
  set (st1 := Better.State true (Better.in_block_comment st)
                (Better.skip_next_blank st)) in *.
  destruct (better_inside_run mid st1 eq_refl Hmid) as [Hv Hf].
  assert (Hcl : Better.body (final Better.body st1 mid) closer
                = (Better.State false false true, DropCloser)).
  { assert (Hin : Better.inside (final Better.body st1 mid) = true)
      by (unfold Better.inside; now rewrite Hf).
    unfold no_opener in Hno.
    destruct (better_body_turn (final Better.body st1 mid) closer);
      first [reflexivity|congruence]. }
  split.
  - apply run_dropped. simpl. rewrite Hb. constructor; [reflexivity|].
    rewrite verdicts_app. apply Forall_app. split; [exact Hv|].
    simpl. rewrite Hcl. now repeat constructor.
  - simpl. rewrite Hb. cbn [fst]. rewrite final_app. simpl.
    now rewrite Hcl.
Qed.

Lemma comments_block (st : Comments.state) (opener : str) (mid : list str)
    (closer : str) :
  startswith (strip opener) (lit "/**") = true ->
  Forall no_closer mid ->
  contains (strip closer) (lit "*/") = true -> no_opener closer ->
  run Comments.body st (opener :: mid ++ [closer]) = []
  /\ final Comments.body st (opener :: mid ++ [closer])
     = Comments.State false true.
Proof.
  intros Ho Hmid Hc Hno.
  assert (Hb : Comments.body st opener
               = (Comments.State true (Comments.skip_next_blank st),
                  DropOpener)).
  { destruct (comments_body_turn st opener); [reflexivity|congruence..]. }
  set (st1 := Comments.State true (Comments.skip_next_blank st)) in *.
  destruct (comments_inside_run mid st1 eq_refl Hmid) as [Hv Hf].
  assert (Hcl : Comments.body (final Comments.body st1 mid) closer
                = (Comments.State false true, DropCloser)).
  { unfold no_opener in Hno.
    destruct (comments_body_turn (final Comments.body st1 mid) closer);
      first [reflexivity|congruence]. }
  split.
  - apply run_dropped. simpl. rewrite Hb. constructor; [reflexivity|].
    rewrite verdicts_app. apply Forall_app. split; [exact Hv|].
    simpl. rewrite Hcl. now repeat constructor.
  - simpl. rewrite Hb. cbn [fst]. rewrite final_app. simpl.
    now rewrite Hcl.
Qed.

(** X10. A doc comment cuts the file in two parts that are simplified
    independently.  With an opener line (trimmed, it starts with [/**]),
    lines without [*/], and a closer line (it has [*/] and does not start
    with [/**]): the output for the lines before, the comment and the lines
    after is the output for the lines before, followed by the output for
    the lines after less their first line when that one is blank.  Both
    scripts, whatever the lines before are. *)
Theorem X10_doc_comment_cuts_the_file
    (before : list str) (opener : str) (mid : list str) (closer : str)
    (rest : list str) :
  startswith (strip opener) (lit "/**") = true ->
  Forall no_closer mid ->
  contains (strip closer) (lit "*/") = true -> no_opener closer ->
  Better.simplify_java_file (before ++ opener :: mid ++ closer :: rest)
  = Better.simplify_java_file before
    ++ Better.simplify_java_file (after_block rest)
  /\ Comments.simplify_java_file (before ++ opener :: mid ++ closer :: rest)
     = Comments.simplify_java_file before
       ++ Comments.simplify_java_file (after_block rest).
Proof.
  intros Ho Hmid Hc Hno.
  replace (opener :: mid ++ closer :: rest)
    with ((opener :: mid ++ [closer]) ++ rest)
    by (simpl; now rewrite <- app_assoc).
  unfold Better.simplify_java_file, Comments.simplify_java_file.
  rewrite !for_loop_run, !run_app. split.
  - destruct (better_block (final Better.body Better.init before)
                opener mid closer Ho Hmid Hc Hno) as [-> ->].
    now rewrite better_after_closer.
  - destruct (comments_block (final Comments.body Comments.init before)
                opener mid closer Ho Hmid Hc Hno) as [-> ->].
    now rewrite comments_after_closer.
Qed.

(** X10 at a line of code, a doc comment, two blank lines and code. *)
Lemma X10_doc_comment_cuts_the_file_witness :
  Comments.simplify_java_file
    ([ln "int a; // Set a"] ++ ln "/**" :: [ln " * doc"] ++ ln " */"
       :: [blank; blank; ln "int b;"])
  = [ln "int a; a"] ++ [blank; ln "int b;"].
Proof.
  apply (proj2 (X10_doc_comment_cuts_the_file [ln "int a; // Set a"]
                  (ln "/**") [ln " * doc"] (ln " */")
                  [blank; blank; ln "int b;"]
                  eq_refl ltac:(repeat constructor) eq_refl eq_refl)).
Defined.

(** ** Lines without a comment *)

Lemma no_comment_no_match (line : str) :
  contains line (lit "//") = false -> no_action_marker line.
Proof.
  intros Hc. unfold no_action_marker.
  destruct (re_search inline_action line) eqn:E; [|reflexivity].
  apply inline_action_search in E as (before & ws & m & after & -> & _).
  assert (H : contains (before ++ lit "//" ++ ws ++ m ++ after) (lit "//")
              = true) by (apply contains_infix; eauto).
  congruence.
Qed.

Lemma strip_contains (line p : str) :
  contains (strip line) p = true -> contains line p = true.
Proof.
  rewrite !contains_infix. intros (a & b & Hs).
  destruct (strip_split line) as (ws1 & ws2 & Hl & _).
  exists (ws1 ++ a), (b ++ ws2). rewrite Hl, Hs, <- !app_assoc. reflexivity.
Qed.

(** X11. simplify_comments.py never edits a line that has no [//], and
    never drops it as a divider or as noise: in any state, the line is
    written as it is, or dropped as part of a doc comment or as the blank
    line after one. *)
Theorem X11_comments_leaves_code_alone (st : Comments.state) (line : str) :
  contains line (lit "//") = false ->
  untouched line (snd (Comments.body st line)).
Proof.
  intros Hc.
  assert (Hs : contains (strip line) (lit "//") = false).
  { destruct (contains (strip line) (lit "//")) eqn:E; [|reflexivity].
    apply strip_contains in E. congruence. }
  destruct (comments_body_turn st line) as [| | | |? ? ? Hd|? ? ? ? Hn|];
    simpl; auto.
  - apply divider_comments_match in Hd as (ws0 & ws1 & rest & Hd & _).
    rewrite Hd in Hs.
    assert (contains (ws0 ++ lit "//" ++ ws1 ++ replicate 3 (ch "=") ++ rest)
              (lit "//") = true) by (apply contains_infix; eauto).
    congruence.
  - apply noise_prefix_match in Hn as (ws0 & m & rest & Hn & _).
    rewrite Hn in Hs.
    assert (contains (ws0 ++ lit "//" ++ m ++ rest) (lit "//") = true)
      by (apply contains_infix; eauto).
    congruence.
  - apply re_sub_no_match. now apply no_comment_no_match.
Qed.

(** X11 at a line of code with marker words and a block comment, but no
    [//]. *)
Lemma X11_comments_leaves_code_alone_witness :
  let line := ln "Set<String> names = Find.all(); /* Get */" in
  contains line (lit "//") = false
  /\ untouched line (snd (Comments.body Comments.init line)).
Proof.
  intros line. split; [reflexivity|].
  apply (X11_comments_leaves_code_alone Comments.init line). reflexivity.
Defined.

(** ** Line feeds *)

Lemma eat_LF (l : str) : forall t : str,
  LF ∉ l -> eat l (t ++ [LF]) = option_map (fun r => r ++ [LF]) (eat l t).
Proof.
  induction l as [|a l IH]; intros t Hl.
  - destruct t; reflexivity.
  - apply not_elem_of_cons in Hl as [Ha Hl]. destruct t as [|b t]; simpl.
    + destruct (N.eqb_spec a LF); [congruence|reflexivity].
    + destruct (N.eqb a b); [now apply IH|reflexivity].
Qed.

Lemma rep_nil (c : cls) (k : cont) (n : nat) (b : bool) :
  (forall b, k b [] = None) -> rep c n k b [] = None.
Proof. intros Hnil. simpl. destruct n; auto. Qed.

Lemma rep_LF (c : cls) (k : cont) :
  lf_blind k -> (forall b, k b [] = None) ->
  forall n, lf_blind (rep c n k).
Proof.
  intros Hk Hnil n b t. revert n b.
  induction t as [|x t IH]; intros n b.
  - change ([] ++ [LF]) with [LF].
    rewrite (rep_nil c k n b Hnil). simpl option_map.
    assert (HkLF : k b [LF] = None).
    { rewrite <- (app_nil_l [LF]), Hk, Hnil. reflexivity. }
    cbn [rep].
    destruct (in_cls c LF), n as [|[|m]]; simpl; rewrite ?Hnil; auto.
  - cbn [app rep]. destruct (in_cls c x).
    + rewrite IH. destruct (rep c (pred n) k false t); [reflexivity|].
      simpl. destruct n; [|reflexivity].
      change (x :: t ++ [LF]) with ((x :: t) ++ [LF]). apply Hk.
    + destruct n; [|reflexivity].
      change (x :: t ++ [LF]) with ((x :: t) ++ [LF]). apply Hk.
Qed.

Lemma alt_LF (alts : list str) (k : cont) :
  Forall (fun a => LF ∉ a) alts -> lf_blind k -> lf_blind (alt alts k).
Proof.
  intros Halts Hk b t. induction Halts as [|a alts Ha _ IH]; cbn [alt];
    [reflexivity|].
  rewrite eat_LF by exact Ha. destruct (eat a t) as [t'|]; simpl; [|exact IH].
  rewrite Hk. destruct (k (b && is_empty a) t'); [reflexivity|exact IH].
Qed.

Lemma alt_nil (alts : list str) (k : cont) (b : bool) :
  Forall (fun a => a <> []) alts -> alt alts k b [] = None.
Proof.
  induction 1 as [|a alts Ha _ IH]; cbn [alt]; [reflexivity|].
  destruct a; [congruence|exact IH].
Qed.

Lemma action_markers_plain :
  Forall (fun a => LF ∉ a) action_markers
  /\ Forall (fun a => a <> []) action_markers.
Proof.
  split; repeat constructor; try discriminate;
    intros H; repeat (apply elem_of_cons in H as [H|H]; [discriminate|]);
    inversion H.
Qed.

Lemma inline_action_LF : lf_blind (exec inline_action).
Proof.
  destruct action_markers_plain as [Hlf Hne].
  unfold inline_action.
  assert (H3 : lf_blind (exec [Alt action_markers])).
  { intros b t. cbn [exec]. apply alt_LF; [exact Hlf|]. now intros b' t'. }
  assert (H2 : lf_blind (exec [Rep Space 0; Alt action_markers])).
  { intros b t. cbn [exec]. apply rep_LF; [exact H3|].
    intros b'. cbn [exec]. now apply alt_nil. }
  assert (H1 : lf_blind
                 (exec [Lit (lit "//"); Rep Space 0; Alt action_markers])).
  { intros b t.
    change (exec [Lit (lit "//"); Rep Space 0; Alt action_markers] b
              (t ++ [LF]))
      with (match eat (lit "//") (t ++ [LF]) with
            | Some s' => exec [Rep Space 0; Alt action_markers]
                           (b && is_empty (lit "//")) s'
            | None => None
            end).
    rewrite eat_LF.
    - cbn [exec]. destruct (eat (lit "//") t) as [t'|]; [|reflexivity].
      simpl option_map. apply H2.
    - intros H. repeat (apply elem_of_cons in H as [H|H]; [discriminate|]).
      inversion H. }
  intros b t. cbn [exec]. apply rep_LF; [exact H1|].
  intros b'. reflexivity.
Qed.

Lemma inline_action_nil (b : bool) : exec inline_action b [] = None.
Proof. reflexivity. Qed.

Lemma sub_loop_LF : forall (fuel : nat) (b : bool) (t : str),
  length t < fuel ->
  sub_loop (Datatypes.S fuel) inline_action [] b (t ++ [LF])
  = sub_loop fuel inline_action [] b t ++ [LF].
Proof.
  induction fuel as [|fuel IH]; intros b t Hlen; [lia|].
  rewrite (sub_loop_step (Datatypes.S fuel)), (sub_loop_step fuel).
  rewrite inline_action_LF.
  destruct (exec inline_action b t) as [rest|] eqn:He; simpl option_map.
  - apply exec_suffix in He as Hle.
    assert (Hne : length rest < length t \/ length rest = length t) by lia.
    rewrite !length_app. cbn [length]. destruct Hne as [Hlt|Heq].
    + replace (length rest + 1 <? length t + 1) with true
        by (symmetry; apply Nat.ltb_lt; lia).
      replace (length rest <? length t) with true
        by (symmetry; apply Nat.ltb_lt; lia).
      cbn [app]. apply IH. lia.
    + replace (length rest + 1 <? length t + 1) with false
        by (symmetry; apply Nat.ltb_ge; lia).
      replace (length rest <? length t) with false
        by (symmetry; apply Nat.ltb_ge; lia).
      destruct t as [|c t]; [destruct rest; discriminate|].
      cbn [app]. f_equal. apply IH. simpl in Hlen. lia.
  - destruct t as [|c t].
    + cbn [app]. rewrite sub_loop_step, inline_action_nil.
      destruct fuel; reflexivity.
    + cbn [app]. f_equal. apply IH. simpl in Hlen. lia.
Qed.

Lemma re_sub_LF (line : str) :
  re_sub inline_action [] (line ++ [LF])
  = re_sub inline_action [] line ++ [LF].
Proof.
  unfold re_sub. rewrite length_app. cbn [length].
  replace (Datatypes.S (length line + 1))
    with (Datatypes.S (Datatypes.S (length line))) by lia.
  apply sub_loop_LF. lia.
Qed.

(** X12. The inline rule of simplify_comments.py never takes the line feed
    that ends a line: stripping a line with its line feed is stripping it
    without and putting the line feed back, so a line that is written ends
    with a line feed when the line read did, and no two lines are joined. *)
Theorem X12_inline_rule_keeps_line_feed :
  (forall line : str,
      re_sub inline_action [] (line ++ [LF])
      = re_sub inline_action [] line ++ [LF])
  /\ (forall (st : Comments.state) (line out : str),
      snd (Comments.body st (line ++ [LF])) = Keep out ->
      out = re_sub inline_action [] line ++ [LF]).
Proof.
  split; [exact re_sub_LF|]. intros st line out H.
  destruct (Comments.body st (line ++ [LF])) as [st' v] eqn:Hb.
  simpl in H. subst v. apply comments_keep_sub in Hb. now rewrite re_sub_LF in Hb.
Qed.

(** X12 at a line with white space between the comment and the line
    feed. *)
Lemma X12_inline_rule_keeps_line_feed_witness :
  snd (Comments.body Comments.init (lit "i++; // Shift right  " ++ [LF]))
  = Keep (lit "i++; right  " ++ [LF])
  /\ lit "i++; right  " ++ [LF]
     = re_sub inline_action [] (lit "i++; // Shift right  ") ++ [LF].
Proof.
  split; [reflexivity|].
  exact (proj2 X12_inline_rule_keeps_line_feed Comments.init
           (lit "i++; // Shift right  ") (lit "i++; right  " ++ [LF])
           eq_refl).
Defined.
